(** * The Stripe [invoice.paid] webhook handler

    Shallow embedding of
    [apps/web/app/api/stripe/integration/webhook/invoice-paid.ts].

    The handler is a linear pipeline with early returns over five stores
    (the relational database, the Redis dedup store, the Tinybird event
    log, the background-task queue of [waitUntil], and the id generator).
    The stores are gathered in one [World] record and the handler is a
    computation in a state-and-exception monad over it. *)

From stdpp Require Import base option list strings pretty gmap fin_maps.
From Stdlib Require Import ZArith Lia.

Local Open Scope Z_scope.
Local Open Scope string_scope.
Local Open Scope list_scope.

(** ** JavaScript values *)

(** [string | null] coerced to a boolean, as [if (x)] and [!x] do: [null]
    and the empty string are falsy, every other string is truthy. *)
Definition truthy (v : option string) : bool :=
  match v with
  | None => false
  | Some s => negb (String.eqb s "")
  end.

(** [a || b] where [a : Date | null]: a [Date] object is always truthy, so
    the right operand is taken exactly when the left one is [null]. *)
Definition or_else {A} (a : option A) (b : A) : A :=
  match a with
  | Some x => x
  | None => b
  end.

(** ** Data model *)

(** [Stripe.Invoice], restricted to the fields the handler reads.
    [amount_paid] is a JavaScript number holding an integer amount in minor
    currency units. *)
Record Invoice := mkInvoice {
  invoice_id : string;
  invoice_customer : string;
  amount_paid : Z;
  invoice_currency : string;
}.

(** [Stripe.Event]: [event.data.object] cast to an invoice. *)
Record StripeEvent := mkStripeEvent {
  data_object : Invoice;
}.

(** A row of the [Customer] table.  Rows are stored under their unique
    [stripeCustomerId]; timestamps are seconds. *)
Record Customer := mkCustomer {
  customer_id : string;
  projectId : string;
  clickedAt : option Z;
  createdAt : Z;
}.

(** A lead event of the Tinybird log: the link it attributes the customer
    to, and its other columns. *)
Record LeadEvent := mkLeadEvent {
  lead_event_id : string;
  lead_event_name : string;
  link_id : string;
  click_id : string;
  lead_customer_id : string;
}.

(** [saleData]: the spread of [leadEvent.data[0]] followed by the keys that
    override or extend it.  [event_id] and [event_name] of the lead are
    overridden; [link_id], [click_id] and [customer_id] are inherited. *)
Record SaleData := mkSaleData {
  sale_link_id : string;
  sale_click_id : string;
  sale_customer_id : string;
  event_id : string;
  event_name : string;
  payment_processor : string;
  amount : Z;
  currency : string;
  sale_invoice_id : string;
  metadata : string;
}.

(** A row of the [Link] table, stored under its id. *)
Record Link := mkLink {
  shortLink : string;
  programId : option string;
  sales : Z;
  saleAmount : Z;
}.

(** A row of the [Project] (workspace) table, stored under its id. *)
Record Project := mkProject {
  usage : Z;
  salesUsage : Z;
}.

(** A key of the dedup store: its value and the time it expires at. *)
Record RedisEntry := mkRedisEntry {
  redis_value : Z;
  expires_at : Z;
}.

(** Errors that reject the handler's promise. *)
Inductive Error :=
| RecordNotFound (model : string).

(** The outcome of an awaited promise: it fulfils with a value or rejects
    with an error. *)
Inductive Completion (A : Type) :=
| Fulfilled (a : A)
| Rejected (e : Error).
Arguments Fulfilled {A}.
Arguments Rejected {A}.

(** The row selected by [programEnrollment.findFirstOrThrow]:
    [{ program, ...partner }] splits it into the program and the rest. *)
Record Partner := mkPartner {
  partnerId : string;
  commissionAmount : Z;
}.

Record ProgramEnrollment (Program : Type) := mkProgramEnrollment {
  enrollment_program : Program;
  enrollment_partner : Partner;
  enrollment_links : list string;
}.
Arguments mkProgramEnrollment {Program}.
Arguments enrollment_program {Program}.
Arguments enrollment_partner {Program}.
Arguments enrollment_links {Program}.

(** The argument of [prepareEarnings]. *)
Record EarningsArgs (Program : Type) := mkEarningsArgs {
  ea_linkId : string;
  ea_customerId : string;
  ea_program : Program;
  ea_partner : Partner;
  ea_event_type : string;
  ea_event_id : string;
  ea_sale_amount : Z;
  ea_sale_currency : string;
  ea_sale_invoiceId : string;
}.
Arguments mkEarningsArgs {Program}.

(** The argument of [transformSaleEventData]: [saleData] spread, then
    [clickedAt], [link] and [customer]. *)
Record SaleEventInput := mkSaleEventInput {
  sei_sale : SaleData;
  sei_clickedAt : Z;
  sei_link : Link;
  sei_customer : Customer;
}.

(** ** Collaborators whose code lies outside this file

    [prepareEarnings], [transformSaleEventData], [JSON.stringify] and
    [nanoid] are imported; the handler only passes values through them.
    They are parameters of the development. *)
Class Collaborators := {
  Program : Type;
  EarningsData : Type;
  WebhookData : Type;
  (** the [amount] and [earnings] columns of an earnings row, both nullable *)
  earnings_amount : EarningsData -> option Z;
  earnings_earnings : EarningsData -> option Z;
  prepareEarnings : EarningsArgs Program -> EarningsData;
  transformSaleEventData : SaleEventInput -> WebhookData;
  (** [nanoid(16)], as a function of the number of ids drawn so far *)
  nanoid : nat -> string;
  (** [JSON.stringify({ invoice })] *)
  stringify_invoice : Invoice -> string;
}.

Section Handler.
Context `{Collaborators}.

(** Tasks handed to [waitUntil]; they run detached from the response. *)
Inductive Task :=
| NotifyPartnerSale (partner_id referralLink : string) (program : Program)
    (sale_amount sale_earnings : option Z)
| SendWorkspaceWebhook (trigger : string) (workspace : Project)
    (data : WebhookData).

(** ** The stores *)
Record World := mkWorld {
  now : Z;
  customers : gmap string Customer;
  redis : gmap string RedisEntry;
  lead_events : gmap string (list LeadEvent);
  sale_events : list SaleData;
  links : gmap string Link;
  projects : gmap string Project;
  enrollments : list (ProgramEnrollment Program);
  earnings : list EarningsData;
  background : list Task;
  ids_drawn : nat;
}.

Definition set_redis (r : gmap string RedisEntry) (w : World) : World :=
  mkWorld (now w) (customers w) r (lead_events w) (sale_events w) (links w)
    (projects w) (enrollments w) (earnings w) (background w) (ids_drawn w).
Definition set_sale_events (s : list SaleData) (w : World) : World :=
  mkWorld (now w) (customers w) (redis w) (lead_events w) s (links w)
    (projects w) (enrollments w) (earnings w) (background w) (ids_drawn w).
Definition set_links (l : gmap string Link) (w : World) : World :=
  mkWorld (now w) (customers w) (redis w) (lead_events w) (sale_events w) l
    (projects w) (enrollments w) (earnings w) (background w) (ids_drawn w).
Definition set_projects (p : gmap string Project) (w : World) : World :=
  mkWorld (now w) (customers w) (redis w) (lead_events w) (sale_events w)
    (links w) p (enrollments w) (earnings w) (background w) (ids_drawn w).
Definition set_earnings (e : list EarningsData) (w : World) : World :=
  mkWorld (now w) (customers w) (redis w) (lead_events w) (sale_events w)
    (links w) (projects w) (enrollments w) e (background w) (ids_drawn w).
Definition set_background (b : list Task) (w : World) : World :=
  mkWorld (now w) (customers w) (redis w) (lead_events w) (sale_events w)
    (links w) (projects w) (enrollments w) (earnings w) b (ids_drawn w).
Definition set_ids_drawn (n : nat) (w : World) : World :=
  mkWorld (now w) (customers w) (redis w) (lead_events w) (sale_events w)
    (links w) (projects w) (enrollments w) (earnings w) (background w) n.

(** ** Awaited computations *)

(** A computation reads and writes the stores and completes; whether it
    fulfils or rejects, the writes it made stay. *)
Definition Async (A : Type) : Type := World -> Completion A * World.

Definition resolve {A} (a : A) : Async A := fun w => (Fulfilled a, w).

Definition await {A B} (m : Async A) (k : A -> Async B) : Async B :=
  fun w =>
    match m w with
    | (Fulfilled a, w') => k a w'
    | (Rejected e, w') => (Rejected e, w')
    end.

Notation "'let*' x ':=' m 'in' k" := (await m (fun x => k))
  (at level 10, x pattern, m at level 100, k at level 200).

(** [Promise.all([a, b, c])]: the three promises are all started, so each
    one's writes happen whether or not another rejects; the result rejects
    with the error of the leftmost rejected promise. *)
Definition promise_all3 {A B C} (a : Async A) (b : Async B) (c : Async C)
  : Async (A * B * C) :=
  fun w =>
    let '(ra, w1) := a w in
    let '(rb, w2) := b w1 in
    let '(rc, w3) := c w2 in
    (match ra, rb, rc with
     | Fulfilled x, Fulfilled y, Fulfilled z => Fulfilled (x, y, z)
     | Rejected e, _, _ => Rejected e
     | _, Rejected e, _ => Rejected e
     | _, _, Rejected e => Rejected e
     end, w3).

(** ** The collaborators' operations *)

(** [prisma.customer.findUnique({ where: { stripeCustomerId } })] *)
Definition customer_findUnique (stripeCustomerId : string)
  : Async (option Customer) :=
  fun w => (Fulfilled (customers w !! stripeCustomerId), w).

(** The dedup key of an invoice. *)
Definition dedup_key (invoiceId : string) : string :=
  "dub_sale_events:invoiceId:" +:+ invoiceId.

(** A key is held while it is stored and has not expired. *)
Definition redis_holds (w : World) (key : string) : bool :=
  match redis w !! key with
  | Some e => bool_decide (now w < expires_at e)
  | None => false
  end.

(** [redis.set(key, value, { ex, nx: true })]: sets the key, to expire [ex]
    seconds from now, only if it is not held; answers ["OK"] when it did and
    [null] when it did not. *)
Definition redis_set_nx (key : string) (value ex : Z)
  : Async (option string) :=
  fun w =>
    if redis_holds w key then (Fulfilled None, w)
    else (Fulfilled (Some "OK"),
          set_redis (<[key := mkRedisEntry value (now w + ex)]> (redis w)) w).

(** [getLeadEvent({ customerId })]: [null], or a response whose [data] is
    the list of the customer's lead events. *)
Definition getLeadEvent (customerId : string)
  : Async (option (list LeadEvent)) :=
  fun w => (Fulfilled (lead_events w !! customerId), w).

(** [nanoid(16)] *)
Definition draw_nanoid : Async string :=
  fun w => (Fulfilled (nanoid (ids_drawn w)),
            set_ids_drawn (S (ids_drawn w)) w).

(** [prisma.link.findUnique({ where: { id } })] *)
Definition link_findUnique (id : string) : Async (option Link) :=
  fun w => (Fulfilled (links w !! id), w).

(** [recordSale(saleData)] appends to the event log. *)
Definition recordSale (sale : SaleData) : Async unit :=
  fun w => (Fulfilled tt, set_sale_events (sale_events w ++ [sale]) w).

(** [prisma.link.update] incrementing [sales] and [saleAmount]; it rejects
    when no row has the id, and fulfils with the updated row.  The
    [include: includeTags] joins the link's tags to the row returned; tags
    are not part of the model. *)
Definition link_update_increment (id : string) (by_sales by_amount : Z)
  : Async Link :=
  fun w =>
    match links w !! id with
    | None => (Rejected (RecordNotFound "Link"), w)
    | Some l =>
        let l' := mkLink (shortLink l) (programId l)
                    (sales l + by_sales) (saleAmount l + by_amount) in
        (Fulfilled l', set_links (<[id := l']> (links w)) w)
    end.

(** [prisma.project.update] incrementing [usage] and [salesUsage]. *)
Definition project_update_increment (id : string) (by_usage by_amount : Z)
  : Async Project :=
  fun w =>
    match projects w !! id with
    | None => (Rejected (RecordNotFound "Project"), w)
    | Some p =>
        let p' := mkProject (usage p + by_usage) (salesUsage p + by_amount) in
        (Fulfilled p', set_projects (<[id := p']> (projects w)) w)
    end.

(** [prisma.programEnrollment.findFirstOrThrow({ where: { links: { some:
    { id } } } })]: the first enrollment one of whose links has the id. *)
Definition has_link (id : string) (e : ProgramEnrollment Program) : bool :=
  existsb (String.eqb id) (enrollment_links e).

Definition programEnrollment_findFirstOrThrow (linkId : string)
  : Async (ProgramEnrollment Program) :=
  fun w =>
    match find (has_link linkId) (enrollments w) with
    | Some e => (Fulfilled e, w)
    | None => (Rejected (RecordNotFound "ProgramEnrollment"), w)
    end.

(** [prisma.earnings.create({ data })] *)
Definition earnings_create (data : EarningsData) : Async unit :=
  fun w => (Fulfilled tt, set_earnings (earnings w ++ [data]) w).

(** [waitUntil(task)] queues the task and returns at once. *)
Definition waitUntil (t : Task) : Async unit :=
  fun w => (Fulfilled tt, set_background (background w ++ [t]) w).

(** ** The status messages *)
Definition msg_customer_not_found (stripeCustomerId : string) : string :=
  "Customer with stripeCustomerId " +:+ stripeCustomerId
    +:+ " not found, skipping...".
Definition msg_already_processed (invoiceId : string) : string :=
  "Invoice with ID " +:+ invoiceId +:+ " already processed, skipping...".
Definition msg_zero_amount (invoiceId : string) : string :=
  "Invoice with ID " +:+ invoiceId +:+ " has an amount of 0, skipping...".
Definition msg_lead_not_found (customerId : string) : string :=
  "Lead event with customer ID " +:+ customerId +:+ " not found, skipping...".
Definition msg_link_not_found (linkId : string) : string :=
  "Link with ID " +:+ linkId +:+ " not found, skipping...".
Definition msg_sale_recorded (customerId invoiceId : string) : string :=
  "Sale recorded for customer ID " +:+ customerId
    +:+ " and invoice ID " +:+ invoiceId.

(** ** The handler *)

(** Lines 114-165: the branch for program links.  Rows are stored under
    their id, so [link.id] is the [linkId] the link was found under. *)
Definition program_branch (customer : Customer) (linkId : string)
    (link : Link) (eventId : string) (saleData : SaleData) : Async unit :=
  if truthy (programId link) then
    let* enrollment := programEnrollment_findFirstOrThrow linkId in
    let program := enrollment_program enrollment in
    let partner := enrollment_partner enrollment in
    let earningsData :=
      prepareEarnings
        (mkEarningsArgs linkId (customer_id customer) program partner
           "sale" eventId
           (amount saleData) (currency saleData) (sale_invoice_id saleData)) in
    let* _ := earnings_create earningsData in
    waitUntil
      (NotifyPartnerSale (partnerId partner) (shortLink link) program
         (earnings_amount earningsData) (earnings_earnings earningsData))
  else resolve tt.

(** Lines 54-181: what happens once the first lead event is known. *)
Definition record_sale_for (invoice : Invoice) (customer : Customer)
    (lead : LeadEvent) : Async string :=
  let invoiceId := invoice_id invoice in
  let* eventId := draw_nanoid in
  let saleData :=
    mkSaleData (link_id lead) (click_id lead) (lead_customer_id lead)
      eventId "Subscription update" "stripe"
      (amount_paid invoice) (invoice_currency invoice) invoiceId
      (stringify_invoice invoice) in
  let linkId := link_id lead in
  let* link := link_findUnique linkId in
  match link with
  | None => resolve (msg_link_not_found linkId)
  | Some link =>
      let* (_sale, linkUpdated, workspace) :=
        promise_all3
          (recordSale saleData)
          (link_update_increment linkId 1 (amount_paid invoice))
          (project_update_increment (projectId customer) 1
             (amount_paid invoice)) in
      let* _ := program_branch customer linkId link eventId saleData in
      let* _ :=
        waitUntil
          (SendWorkspaceWebhook "sale.created" workspace
             (transformSaleEventData
                (mkSaleEventInput saleData
                   (or_else (clickedAt customer) (createdAt customer))
                   linkUpdated customer))) in
      resolve (msg_sale_recorded (customer_id customer) invoiceId)
  end.

(** [invoicePaid(event)] *)
Definition invoicePaid (event : StripeEvent) : Async string :=
  let invoice := data_object event in
  let stripeCustomerId := invoice_customer invoice in
  let invoiceId := invoice_id invoice in
  let* customer := customer_findUnique stripeCustomerId in
  match customer with
  | None => resolve (msg_customer_not_found stripeCustomerId)
  | Some customer =>
      let* ok := redis_set_nx (dedup_key invoiceId) 1 (60 * 60 * 24 * 7) in
      if negb (truthy ok) then resolve (msg_already_processed invoiceId)
      else if (amount_paid invoice =? 0)%Z then resolve (msg_zero_amount invoiceId)
      else
        let* leadEvent := getLeadEvent (customer_id customer) in
        match leadEvent with
        | None | Some [] => resolve (msg_lead_not_found (customer_id customer))
        | Some (lead :: _) => record_sale_for invoice customer lead
        end
  end.

End Handler.

(** ** A concrete deployment, for running the handler

    Sample collaborators: a program is its name, an earnings row is its
    pair of [amount] and [earnings], the webhook transform is the identity. *)
Definition sample_collaborators : Collaborators := {|
  Program := string;
  EarningsData := option Z * option Z;
  WebhookData := SaleEventInput;
  earnings_amount := fst;
  earnings_earnings := snd;
  prepareEarnings := fun args =>
    (Some (ea_sale_amount _ args),
     Some (commissionAmount (ea_partner _ args)));
  transformSaleEventData := fun x => x;
  nanoid := fun n => "evt_" +:+ pretty n;
  stringify_invoice := fun inv => "{invoice:" +:+ invoice_id inv +:+ "}";
|}.

Module Scenario.

Definition cus_1 : Customer := mkCustomer "cus_1" "ws_1" None 1700000000.
Definition lead_1 : LeadEvent :=
  mkLeadEvent "lead_evt_1" "Sign up" "link_1" "click_1" "cus_1".
Definition link_1 : Link := mkLink "https://dub.sh/one" None 3 1200.
Definition ws_1 : Project := mkProject 10 4000.

(** The deployment, with the state of the dedup store, the row of
    [link_1], the enrollments and the lead events left open. *)
Definition world (keys : gmap string RedisEntry) (l : Link)
    (enrolled : list (ProgramEnrollment string))
    (leads : gmap string (list LeadEvent)) : @World sample_collaborators :=
  @mkWorld sample_collaborators 1700500000
    {[ "cus_stripe_1" := cus_1 ]}
    keys
    leads
    []
    {[ "link_1" := l ]}
    {[ "ws_1" := ws_1 ]}
    enrolled
    []
    []
    0.

Definition leads_1 : gmap string (list LeadEvent) := {[ "cus_1" := [lead_1] ]}.

(** [link_1] has no program and nothing has been delivered yet. *)
Definition world_1 : @World sample_collaborators := world ∅ link_1 [] leads_1.

(** The invoice [in_1] was claimed an hour ago. *)
Definition world_claimed : @World sample_collaborators :=
  world {[ dedup_key "in_1" := mkRedisEntry 1 (1700500000 - 3600 + 604800) ]}
    link_1 [] leads_1.

(** The customer has no lead event. *)
Definition world_no_lead : @World sample_collaborators :=
  world ∅ link_1 [] ∅.

(** [link_1] belongs to the program [prog_1], under which the partner
    [pn_1] is enrolled with this link. *)
Definition program_link : Link :=
  mkLink "https://dub.sh/one" (Some "prog_1") 3 1200.
Definition enrollment_1 : ProgramEnrollment string :=
  mkProgramEnrollment "Acme affiliates" (mkPartner "pn_1" 50) ["link_1"].
Definition world_program : @World sample_collaborators :=
  world ∅ program_link [enrollment_1] leads_1.

(** The same link with no enrollment behind it. *)
Definition world_not_enrolled : @World sample_collaborators :=
  world ∅ program_link [] leads_1.

(** [link_1] carries the empty string as its program id. *)
Definition empty_program_link : Link :=
  mkLink "https://dub.sh/one" (Some "") 3 1200.
Definition world_empty_program : @World sample_collaborators :=
  world ∅ empty_program_link [] leads_1.

(** The customer has not been synchronised yet. *)
Definition world_unknown_customer : @World sample_collaborators :=
  @mkWorld sample_collaborators 1700400000 ∅ ∅ leads_1 [] {[ "link_1" := link_1 ]}
    {[ "ws_1" := ws_1 ]} [] [] [] 0.

Definition invoice_in_1 (paid : Z) : StripeEvent :=
  mkStripeEvent (mkInvoice "in_1" "cus_stripe_1" paid "usd").

(** A second invoice of the same customer. *)
Definition invoice_in_2 (paid : Z) : StripeEvent :=
  mkStripeEvent (mkInvoice "in_2" "cus_stripe_1" paid "eur").

(** The link of the lead event has been deleted. *)
Definition world_no_link : @World sample_collaborators :=
  @mkWorld sample_collaborators 1700500000 {[ "cus_stripe_1" := cus_1 ]} ∅
    leads_1 [] ∅ {[ "ws_1" := ws_1 ]} [] [] [] 0.

(** The workspace row of the customer is gone. *)
Definition world_no_workspace : @World sample_collaborators :=
  @mkWorld sample_collaborators 1700500000 {[ "cus_stripe_1" := cus_1 ]} ∅
    leads_1 [] {[ "link_1" := link_1 ]} ∅ [] [] [] 0.

(** [world_1] eight days later, the key of [in_1] still stored. *)
Definition world_week_later : @World sample_collaborators :=
  @mkWorld sample_collaborators (1700500000 + 8 * 86400)
    {[ "cus_stripe_1" := cus_1 ]}
    {[ dedup_key "in_1" := mkRedisEntry 1 (1700500000 + 604800) ]}
    leads_1 [] {[ "link_1" := link_1 ]} {[ "ws_1" := ws_1 ]} [] [] [] 1.

End Scenario.

(** Discharges [Processed] on a concrete world by evaluation. *)
Ltac processed :=
  constructor;
  [ reflexivity | reflexivity | cbn; lia | exists []; reflexivity
  | reflexivity | reflexivity ].

(** * Properties *)

Section Properties.
Context `{Collaborators}.

Notation "'let*' x ':=' m 'in' k" := (await m (fun x => k))
  (at level 10, x pattern, m at level 100, k at level 200).

(** The seven-day expiry of a dedup key, in seconds. *)
Definition dedup_window : Z := 60 * 60 * 24 * 7.

(** The world once the dedup key of the invoice has been claimed. *)
Definition claimed (invoiceId : string) (w : World) : World :=
  set_redis
    (<[dedup_key invoiceId := mkRedisEntry 1 (now w + dedup_window)]> (redis w))
    w.

(** The sale record built from an invoice and a lead event in world [w]. *)
Definition sale_of (invoice : Invoice) (lead : LeadEvent) (w : World)
  : SaleData :=
  mkSaleData (link_id lead) (click_id lead) (lead_customer_id lead)
    (nanoid (ids_drawn w)) "Subscription update" "stripe"
    (amount_paid invoice) (invoice_currency invoice) (invoice_id invoice)
    (stringify_invoice invoice).

Definition link_after (invoice : Invoice) (l : Link) : Link :=
  mkLink (shortLink l) (programId l) (sales l + 1)
    (saleAmount l + amount_paid invoice).

Definition project_after (invoice : Invoice) (p : Project) : Project :=
  mkProject (usage p + 1) (salesUsage p + amount_paid invoice).

(** The world after the dedup claim, the id draw and the three parallel
    writes of a sale. *)
Definition after_writes (invoice : Invoice) (cu : Customer)
    (lead : LeadEvent) (l : Link) (p : Project) (w : World) : World :=
  mkWorld (now w) (customers w)
    (<[dedup_key (invoice_id invoice)
        := mkRedisEntry 1 (now w + dedup_window)]> (redis w))
    (lead_events w)
    (sale_events w ++ [sale_of invoice lead w])
    (<[link_id lead := link_after invoice l]> (links w))
    (<[projectId cu := project_after invoice p]> (projects w))
    (enrollments w) (earnings w) (background w) (S (ids_drawn w)).

(** The workspace webhook task of a sale. *)
Definition webhook_task (invoice : Invoice) (cu : Customer)
    (lead : LeadEvent) (l : Link) (p : Project) (w : World) : Task :=
  SendWorkspaceWebhook "sale.created" (project_after invoice p)
    (transformSaleEventData
       (mkSaleEventInput (sale_of invoice lead w)
          (or_else (clickedAt cu) (createdAt cu))
          (link_after invoice l) cu)).

(** The earnings computed for a sale under an enrollment, and the partner
    notification that reports them. *)
Definition earnings_of (invoice : Invoice) (cu : Customer) (lead : LeadEvent)
    (e : ProgramEnrollment Program) (w : World) : EarningsData :=
  prepareEarnings
    (mkEarningsArgs (link_id lead) (customer_id cu) (enrollment_program e)
       (enrollment_partner e) "sale" (nanoid (ids_drawn w))
       (amount_paid invoice) (invoice_currency invoice) (invoice_id invoice)).

Definition notify_task (l : Link) (e : ProgramEnrollment Program)
    (data : EarningsData) : Task :=
  NotifyPartnerSale (partnerId (enrollment_partner e)) (shortLink l)
    (enrollment_program e) (earnings_amount data) (earnings_earnings data).

(** The situation in which the handler gets as far as the parallel writes
    and they all succeed: the customer is known, the dedup key is free, the
    amount is not zero, [lead] is the first lead event of the customer, and
    the link and the workspace exist. *)
Record Processed (ev : StripeEvent) (w : World) (cu : Customer)
    (lead : LeadEvent) (l : Link) (p : Project) : Prop := {
  proc_customer :
    customers w !! invoice_customer (data_object ev) = Some cu;
  proc_fresh :
    redis_holds w (dedup_key (invoice_id (data_object ev))) = false;
  proc_amount : amount_paid (data_object ev) ≠ 0;
  proc_lead :
    ∃ rest, lead_events w !! customer_id cu = Some (lead :: rest);
  proc_link : links w !! link_id lead = Some l;
  proc_project : projects w !! projectId cu = Some p;
}.

(** The world when the workspace update rejects: the dedup claim, the id
    draw, the sale event and the link update have happened. *)
Definition partial_writes (invoice : Invoice) (lead : LeadEvent) (l : Link)
    (w : World) : World :=
  mkWorld (now w) (customers w)
    (<[dedup_key (invoice_id invoice)
        := mkRedisEntry 1 (now w + dedup_window)]> (redis w))
    (lead_events w)
    (sale_events w ++ [sale_of invoice lead w])
    (<[link_id lead := link_after invoice l]> (links w))
    (projects w) (enrollments w) (earnings w) (background w)
    (S (ids_drawn w)).

(** The paths of the handler, as a relation between the world it starts in
    and its completion and final world.  One rule per [return] or rejecting
    [await] of the source, in source order. *)
Inductive Path (ev : StripeEvent) (w : World)
  : Completion string → World → Prop :=
| path_no_customer :
    customers w !! invoice_customer (data_object ev) = None →
    Path ev w
      (Fulfilled (msg_customer_not_found (invoice_customer (data_object ev))))
      w
| path_duplicate cu :
    customers w !! invoice_customer (data_object ev) = Some cu →
    redis_holds w (dedup_key (invoice_id (data_object ev))) = true →
    Path ev w
      (Fulfilled (msg_already_processed (invoice_id (data_object ev)))) w
| path_zero_amount cu :
    customers w !! invoice_customer (data_object ev) = Some cu →
    redis_holds w (dedup_key (invoice_id (data_object ev))) = false →
    amount_paid (data_object ev) = 0 →
    Path ev w (Fulfilled (msg_zero_amount (invoice_id (data_object ev))))
      (claimed (invoice_id (data_object ev)) w)
| path_no_lead cu :
    customers w !! invoice_customer (data_object ev) = Some cu →
    redis_holds w (dedup_key (invoice_id (data_object ev))) = false →
    amount_paid (data_object ev) ≠ 0 →
    lead_events w !! customer_id cu = None
    ∨ lead_events w !! customer_id cu = Some [] →
    Path ev w (Fulfilled (msg_lead_not_found (customer_id cu)))
      (claimed (invoice_id (data_object ev)) w)
| path_no_link cu lead rest :
    customers w !! invoice_customer (data_object ev) = Some cu →
    redis_holds w (dedup_key (invoice_id (data_object ev))) = false →
    amount_paid (data_object ev) ≠ 0 →
    lead_events w !! customer_id cu = Some (lead :: rest) →
    links w !! link_id lead = None →
    Path ev w (Fulfilled (msg_link_not_found (link_id lead)))
      (set_ids_drawn (S (ids_drawn w))
         (claimed (invoice_id (data_object ev)) w))
| path_no_workspace cu lead rest l :
    customers w !! invoice_customer (data_object ev) = Some cu →
    redis_holds w (dedup_key (invoice_id (data_object ev))) = false →
    amount_paid (data_object ev) ≠ 0 →
    lead_events w !! customer_id cu = Some (lead :: rest) →
    links w !! link_id lead = Some l →
    projects w !! projectId cu = None →
    Path ev w (Rejected (RecordNotFound "Project"))
      (partial_writes (data_object ev) lead l w)
| path_plain_link cu lead l p :
    Processed ev w cu lead l p →
    truthy (programId l) = false →
    Path ev w
      (Fulfilled
         (msg_sale_recorded (customer_id cu) (invoice_id (data_object ev))))
      (set_background
         (background w ++ [webhook_task (data_object ev) cu lead l p w])
         (after_writes (data_object ev) cu lead l p w))
| path_program_link cu lead l p e :
    Processed ev w cu lead l p →
    truthy (programId l) = true →
    find (has_link (link_id lead)) (enrollments w) = Some e →
    Path ev w
      (Fulfilled
         (msg_sale_recorded (customer_id cu) (invoice_id (data_object ev))))
      (set_background
         (background w
            ++ [notify_task l e (earnings_of (data_object ev) cu lead e w);
                webhook_task (data_object ev) cu lead l p w])
         (set_earnings
            (earnings w ++ [earnings_of (data_object ev) cu lead e w])
            (after_writes (data_object ev) cu lead l p w)))
| path_no_enrollment cu lead l p :
    Processed ev w cu lead l p →
    truthy (programId l) = true →
    find (has_link (link_id lead)) (enrollments w) = None →
    Path ev w (Rejected (RecordNotFound "ProgramEnrollment"))
      (after_writes (data_object ev) cu lead l p w).

(** The world with the lead events of one customer replaced. *)
Definition with_leads (customerId : string) (leads : list LeadEvent)
    (w : World) : World :=
  mkWorld (now w) (customers w) (redis w)
    (<[customerId := leads]> (lead_events w))
    (sale_events w) (links w) (projects w) (enrollments w) (earnings w)
    (background w) (ids_drawn w).

(** ** Three statements of the specification, as it words them *)

(** The handler records a sale when the event log grows. *)
Definition records_sale (ev : StripeEvent) (w : World) : Prop :=
  sale_events (snd (invoicePaid ev w)) ≠ sale_events w.

(** C4 as the specification states it: a sale is recorded only if the
    customer was found, the amount paid is strictly positive and the
    customer has a prior lead event. *)
Definition sale_only_if_positive_amount (ev : StripeEvent) (w : World)
  : Prop :=
  records_sale ev w →
  ∃ cu lead rest,
    customers w !! invoice_customer (data_object ev) = Some cu
    ∧ 0 < amount_paid (data_object ev)
    ∧ lead_events w !! customer_id cu = Some (lead :: rest).

(** C5 as the specification states it: a successfully processed sale on a
    link whose program id is not null creates exactly one earnings record
    and notifies the partner of its [amount] and [earnings]. *)
Definition non_null_program_creates_earnings (ev : StripeEvent) (w : World)
  : Prop :=
  ∀ cu lead l p program_id msg,
    Processed ev w cu lead l p →
    programId l = Some program_id →
    fst (invoicePaid ev w) = Fulfilled msg →
    ∃ data,
      earnings (snd (invoicePaid ev w)) = earnings w ++ [data]
      ∧ ∃ partner referral program,
          NotifyPartnerSale partner referral program
            (earnings_amount data) (earnings_earnings data)
          ∈ background (snd (invoicePaid ev w)).

(** C8 as the specification states it: a processed sale on a link whose
    program id is not null, with no enrollment containing the link, makes
    the handler raise an error. *)
Definition non_null_program_needs_enrollment (ev : StripeEvent) (w : World)
  : Prop :=
  ∀ cu lead l p program_id,
    Processed ev w cu lead l p →
    programId l = Some program_id →
    find (has_link (link_id lead)) (enrollments w) = None →
    ∃ e, fst (invoicePaid ev w) = Rejected e.

(** ** The paths through the handler *)

(** Reads of a store through the setters of the others. *)
Ltac stores :=
  unfold set_redis, set_sale_events, set_links, set_projects, set_earnings,
    set_background, set_ids_drawn;
  cbn [now customers redis lead_events sale_events links projects
       enrollments earnings background ids_drawn
       truthy negb String.eqb fst snd].

Ltac stores_in H :=
  unfold set_redis, set_sale_events, set_links, set_projects, set_earnings,
    set_background, set_ids_drawn in H;
  cbn [now customers redis lead_events sale_events links projects
       enrollments earnings background ids_drawn
       truthy negb String.eqb fst snd] in H.

(** Unfolds the handler down to the operations on the stores. *)
Ltac handler :=
  unfold invoicePaid, record_sale_for, program_branch, promise_all3, await,
    resolve, customer_findUnique, redis_set_nx, getLeadEvent, draw_nanoid,
    link_findUnique, recordSale, link_update_increment,
    project_update_increment, programEnrollment_findFirstOrThrow,
    earnings_create, waitUntil.

Lemma run_no_customer ev w :
  customers w !! invoice_customer (data_object ev) = None →
  invoicePaid ev w
  = (Fulfilled (msg_customer_not_found (invoice_customer (data_object ev))), w).
Proof.
  intros Hc. unfold invoicePaid, await, customer_findUnique.
  now rewrite Hc.
Qed.

Lemma run_duplicate ev w cu :
  customers w !! invoice_customer (data_object ev) = Some cu →
  redis_holds w (dedup_key (invoice_id (data_object ev))) = true →
  invoicePaid ev w
  = (Fulfilled (msg_already_processed (invoice_id (data_object ev))), w).
Proof.
  intros Hc Hr. unfold invoicePaid, await, customer_findUnique, redis_set_nx.
  now rewrite Hc, Hr.
Qed.

Lemma run_zero_amount ev w cu :
  customers w !! invoice_customer (data_object ev) = Some cu →
  redis_holds w (dedup_key (invoice_id (data_object ev))) = false →
  amount_paid (data_object ev) = 0 →
  invoicePaid ev w
  = (Fulfilled (msg_zero_amount (invoice_id (data_object ev))),
     claimed (invoice_id (data_object ev)) w).
Proof.
  intros Hc Hr Hz. unfold invoicePaid, await, customer_findUnique, redis_set_nx.
  now rewrite Hc, Hr, Hz.
Qed.

Lemma run_no_lead ev w cu :
  customers w !! invoice_customer (data_object ev) = Some cu →
  redis_holds w (dedup_key (invoice_id (data_object ev))) = false →
  amount_paid (data_object ev) ≠ 0 →
  lead_events w !! customer_id cu = None
  ∨ lead_events w !! customer_id cu = Some [] →
  invoicePaid ev w
  = (Fulfilled (msg_lead_not_found (customer_id cu)),
     claimed (invoice_id (data_object ev)) w).
Proof.
  intros Hc Hr Hz Hl.
  unfold invoicePaid, await, customer_findUnique, redis_set_nx, getLeadEvent.
  rewrite Hc, Hr. apply Z.eqb_neq in Hz. rewrite Hz. stores.
  destruct Hl as [Hl | Hl]; now rewrite Hl.
Qed.

Lemma run_no_link ev w cu lead :
  customers w !! invoice_customer (data_object ev) = Some cu →
  redis_holds w (dedup_key (invoice_id (data_object ev))) = false →
  amount_paid (data_object ev) ≠ 0 →
  (∃ rest, lead_events w !! customer_id cu = Some (lead :: rest)) →
  links w !! link_id lead = None →
  invoicePaid ev w
  = (Fulfilled (msg_link_not_found (link_id lead)),
     set_ids_drawn (S (ids_drawn w)) (claimed (invoice_id (data_object ev)) w)).
Proof.
  intros Hc Hr Hz [rest Hl] Hk. handler.
  rewrite Hc, Hr. apply Z.eqb_neq in Hz. rewrite Hz. stores.
  rewrite Hl. stores. now rewrite Hk.
Qed.

(** Past the parallel writes the handler is the program branch followed by
    the webhook dispatch, run in [after_writes]. *)
Lemma run_processed ev w cu lead l p :
  Processed ev w cu lead l p →
  invoicePaid ev w
  = (let* _ := program_branch cu (link_id lead) l (nanoid (ids_drawn w))
                 (sale_of (data_object ev) lead w) in
     let* _ := waitUntil (webhook_task (data_object ev) cu lead l p w) in
     resolve (msg_sale_recorded (customer_id cu) (invoice_id (data_object ev))))
      (after_writes (data_object ev) cu lead l p w).
Proof.
  intros [Hc Hr Hz [rest Hl] Hk Hp].
  handler.
  rewrite Hc, Hr. apply Z.eqb_neq in Hz. rewrite Hz. stores.
  rewrite Hl. stores. rewrite Hk. stores. rewrite Hk. stores. rewrite Hp.
  reflexivity.
Qed.

Lemma run_plain_link ev w cu lead l p :
  Processed ev w cu lead l p →
  truthy (programId l) = false →
  invoicePaid ev w
  = (Fulfilled
       (msg_sale_recorded (customer_id cu) (invoice_id (data_object ev))),
     set_background
       (background w ++ [webhook_task (data_object ev) cu lead l p w])
       (after_writes (data_object ev) cu lead l p w)).
Proof.
  intros HP Ht. rewrite (run_processed _ _ _ _ _ _ HP).
  unfold program_branch. now rewrite Ht.
Qed.

Lemma run_program_link ev w cu lead l p e :
  Processed ev w cu lead l p →
  truthy (programId l) = true →
  find (has_link (link_id lead)) (enrollments w) = Some e →
  invoicePaid ev w
  = (Fulfilled
       (msg_sale_recorded (customer_id cu) (invoice_id (data_object ev))),
     set_background
       (background w
          ++ [notify_task l e (earnings_of (data_object ev) cu lead e w);
              webhook_task (data_object ev) cu lead l p w])
       (set_earnings
          (earnings w ++ [earnings_of (data_object ev) cu lead e w])
          (after_writes (data_object ev) cu lead l p w))).
Proof.
  intros HP Ht He. rewrite (run_processed _ _ _ _ _ _ HP).
  unfold program_branch. rewrite Ht.
  unfold await, programEnrollment_findFirstOrThrow, earnings_create, waitUntil,
    resolve, after_writes.
  stores. rewrite He. stores.
  unfold set_background. stores. now rewrite <- app_assoc.
Qed.

Lemma run_no_enrollment ev w cu lead l p :
  Processed ev w cu lead l p →
  truthy (programId l) = true →
  find (has_link (link_id lead)) (enrollments w) = None →
  invoicePaid ev w
  = (Rejected (RecordNotFound "ProgramEnrollment"),
     after_writes (data_object ev) cu lead l p w).
Proof.
  intros HP Ht He. rewrite (run_processed _ _ _ _ _ _ HP).
  unfold program_branch. rewrite Ht.
  unfold await, programEnrollment_findFirstOrThrow, after_writes.
  stores. now rewrite He.
Qed.

(** However the program branch ends, a processed sale is in the log. *)
Lemma processed_sale_logged ev w cu lead l p :
  Processed ev w cu lead l p →
  sale_events (snd (invoicePaid ev w))
  = sale_events w ++ [sale_of (data_object ev) lead w].
Proof.
  intros HP.
  destruct (truthy (programId l)) eqn:Ht;
    [| now rewrite (run_plain_link _ _ _ _ _ _ HP Ht)].
  destruct (find (has_link (link_id lead)) (enrollments w)) as [e |] eqn:He.
  - now rewrite (run_program_link _ _ _ _ _ _ _ HP Ht He).
  - now rewrite (run_no_enrollment _ _ _ _ _ _ HP Ht He).
Qed.

(** ** The dedup store *)

(** The conditional set fails exactly when the key is held. *)
Lemma redis_set_nx_fails w key value ex :
  fst (redis_set_nx key value ex w) = Fulfilled None
  ↔ redis_holds w key = true.
Proof.
  unfold redis_set_nx. destruct (redis_holds w key); cbn; split;
    intros E; [reflexivity | reflexivity | discriminate | discriminate].
Qed.

(** A claimed key is held for the next seven days. *)
Lemma claimed_holds invoiceId w w2 :
  redis w2 !! dedup_key invoiceId
    = redis (claimed invoiceId w) !! dedup_key invoiceId →
  now w2 < now w + dedup_window →
  redis_holds w2 (dedup_key invoiceId) = true.
Proof.
  intros Hr Ht. unfold redis_holds. rewrite Hr. unfold claimed. stores.
  rewrite lookup_insert_eq. cbn. now apply bool_decide_eq_true.
Qed.

(** A key that is not held stays so as time passes, while nobody sets it. *)
Lemma free_key_stays_free key w w2 :
  redis_holds w key = false →
  redis w2 !! key = redis w !! key →
  (now w ≤ now w2)%Z →
  redis_holds w2 key = false.
Proof.
  unfold redis_holds. intros Hf Hr Ht. rewrite Hr.
  destruct (redis w !! key) as [e |]; [| reflexivity].
  apply bool_decide_eq_false. apply bool_decide_eq_false in Hf. lia.
Qed.

(** Every path of the handler past the customer look-up leaves the dedup
    key of the invoice as the claim set it. *)
Lemma key_after_claim ev w cu :
  customers w !! invoice_customer (data_object ev) = Some cu →
  redis_holds w (dedup_key (invoice_id (data_object ev))) = false →
  redis (snd (invoicePaid ev w))
  = redis (claimed (invoice_id (data_object ev)) w).
Proof.
  intros Hc Hr.
  destruct (Z.eq_dec (amount_paid (data_object ev)) 0) as [Hz | Hz].
  { now rewrite (run_zero_amount _ _ _ Hc Hr Hz). }
  destruct (lead_events w !! customer_id cu) as [[| lead rest] |] eqn:Hl.
  - rewrite (run_no_lead _ _ _ Hc Hr Hz); auto.
  - destruct (links w !! link_id lead) as [l |] eqn:Hk.
    + handler. rewrite Hc, Hr. apply Z.eqb_neq in Hz. rewrite Hz. stores.
      rewrite Hl. stores. rewrite Hk. stores. rewrite Hk. stores.
      destruct (projects w !! projectId cu) as [p |]; stores;
        [| reflexivity].
      destruct (truthy (programId l)); stores; [| reflexivity].
      destruct (find (has_link (link_id lead)) (enrollments w));
        reflexivity.
    + rewrite (run_no_link _ _ _ lead Hc Hr Hz); eauto.
  - rewrite (run_no_lead _ _ _ Hc Hr Hz); auto.
Qed.

(** ** The specified properties *)

(** C1: in the scenario where customer [cus_1] exists, invoice [in_1] has
    [amount_paid = 500] and currency ["usd"], the first lead event of the
    customer has [link_id = "link_1"] and link [link_1] has
    [programId = null], the handler adds 1 to the link's [sales] and 500 to
    its [saleAmount], adds 1 to the workspace's [usage] and 500 to its
    [salesUsage], appends exactly one sale event, of amount 500, creates no
    earnings record, dispatches a workspace webhook with trigger
    ["sale.created"], and returns ["Sale recorded for customer ID cus_1 and
    invoice ID in_1"]. *)
Theorem scenario_sale_recorded ev w cu lead l p :
  Processed ev w cu lead l p →
  customer_id cu = "cus_1" →
  invoice_id (data_object ev) = "in_1" →
  amount_paid (data_object ev) = 500 →
  invoice_currency (data_object ev) = "usd" →
  link_id lead = "link_1" →
  programId l = None →
  fst (invoicePaid ev w)
    = Fulfilled "Sale recorded for customer ID cus_1 and invoice ID in_1"
  ∧ links (snd (invoicePaid ev w)) !! "link_1"
    = Some (mkLink (shortLink l) None (sales l + 1) (saleAmount l + 500))
  ∧ projects (snd (invoicePaid ev w)) !! projectId cu
    = Some (mkProject (usage p + 1) (salesUsage p + 500))
  ∧ (∃ sale, sale_events (snd (invoicePaid ev w)) = sale_events w ++ [sale]
             ∧ amount sale = 500)
  ∧ earnings (snd (invoicePaid ev w)) = earnings w
  ∧ (∃ workspace data,
       background (snd (invoicePaid ev w))
       = background w ++ [SendWorkspaceWebhook "sale.created" workspace data]).
Proof.
  intros HP Hid Hinv Hamt Hcur Hlk Hprog.
  rewrite (run_plain_link _ _ _ _ _ _ HP) by now rewrite Hprog.
  unfold after_writes, link_after, project_after, webhook_task, sale_of,
    msg_sale_recorded.
  stores. rewrite Hid, Hinv, Hamt, Hlk, Hprog.
  repeat split.
  - apply lookup_insert_eq.
  - apply lookup_insert_eq.
  - eexists. split; reflexivity.
  - eauto.
Qed.

(** C2: when the customer is found, the dedup claim succeeds and the
    invoice has [amount_paid = 0], the handler returns the zero-amount skip
    message, creates no sale event, increments no counter of a link or a
    workspace and creates no earnings record; yet the dedup key of the
    invoice id has been set, with its expiry. *)
Theorem zero_amount_skipped_key_consumed ev w cu :
  customers w !! invoice_customer (data_object ev) = Some cu →
  redis_holds w (dedup_key (invoice_id (data_object ev))) = false →
  amount_paid (data_object ev) = 0 →
  fst (invoicePaid ev w)
    = Fulfilled (msg_zero_amount (invoice_id (data_object ev)))
  ∧ sale_events (snd (invoicePaid ev w)) = sale_events w
  ∧ links (snd (invoicePaid ev w)) = links w
  ∧ projects (snd (invoicePaid ev w)) = projects w
  ∧ earnings (snd (invoicePaid ev w)) = earnings w
  ∧ background (snd (invoicePaid ev w)) = background w
  ∧ redis (snd (invoicePaid ev w)) !! dedup_key (invoice_id (data_object ev))
    = Some (mkRedisEntry 1 (now w + 60 * 60 * 24 * 7))
  ∧ redis_holds (snd (invoicePaid ev w))
      (dedup_key (invoice_id (data_object ev))) = true.
Proof.
  intros Hc Hr Hz. rewrite (run_zero_amount _ _ _ Hc Hr Hz). cbn [fst snd].
  repeat split.
  - unfold claimed. stores. apply lookup_insert_eq.
  - apply (claimed_holds _ w); [reflexivity |].
    unfold claimed, dedup_window. stores. lia.
Qed.

(** C3: when the conditional set of the dedup key fails, the handler
    returns the "already processed" skip message and writes nothing: no
    sale event, no counter, no earnings record, no notification and no
    webhook; every store is as it was. *)
Theorem duplicate_invoice_skipped ev w cu :
  customers w !! invoice_customer (data_object ev) = Some cu →
  fst (redis_set_nx (dedup_key (invoice_id (data_object ev))) 1
         (60 * 60 * 24 * 7) w) = Fulfilled None →
  fst (invoicePaid ev w)
    = Fulfilled (msg_already_processed (invoice_id (data_object ev)))
  ∧ snd (invoicePaid ev w) = w.
Proof.
  intros Hc Hr. apply redis_set_nx_fails in Hr.
  now rewrite (run_duplicate _ _ _ Hc Hr).
Qed.

(** The consequence drawn in C3: once a delivery has claimed an invoice id,
    a delivery of the same id within the seven days, whatever else its
    payload holds, writes nothing, so no second sale event appears. *)
Theorem redelivery_within_window_skipped ev1 w1 cu1 ev2 w2 :
  customers w1 !! invoice_customer (data_object ev1) = Some cu1 →
  redis_holds w1 (dedup_key (invoice_id (data_object ev1))) = false →
  invoice_id (data_object ev2) = invoice_id (data_object ev1) →
  redis w2 !! dedup_key (invoice_id (data_object ev1))
    = redis (snd (invoicePaid ev1 w1))
        !! dedup_key (invoice_id (data_object ev1)) →
  now w2 < now w1 + 60 * 60 * 24 * 7 →
  snd (invoicePaid ev2 w2) = w2
  ∧ sale_events (snd (invoicePaid ev2 w2)) = sale_events w2.
Proof.
  intros Hc Hr Hid Hk Ht.
  rewrite (key_after_claim _ _ _ Hc Hr) in Hk.
  pose proof (claimed_holds _ _ _ Hk Ht) as Hheld. rewrite <- Hid in Hheld.
  destruct (customers w2 !! invoice_customer (data_object ev2)) as [cu2 |]
    eqn:Hc2.
  - now rewrite (run_duplicate _ _ _ Hc2 Hheld).
  - now rewrite (run_no_customer _ _ Hc2).
Qed.

(** C7: when the customer exists and the dedup claim succeeds but the
    customer has no prior lead event, the handler returns a skip message
    and changes nothing but the dedup key: no sale event, no counter of a
    link or a workspace, no earnings record, no notification, no webhook. *)
Theorem no_lead_only_dedup_claim ev w cu :
  customers w !! invoice_customer (data_object ev) = Some cu →
  redis_holds w (dedup_key (invoice_id (data_object ev))) = false →
  lead_events w !! customer_id cu = None
  ∨ lead_events w !! customer_id cu = Some [] →
  fst (invoicePaid ev w)
    = Fulfilled
        (if (amount_paid (data_object ev) =? 0)%Z
         then msg_zero_amount (invoice_id (data_object ev))
         else msg_lead_not_found (customer_id cu))
  ∧ snd (invoicePaid ev w)
    = set_redis
        (<[dedup_key (invoice_id (data_object ev))
            := mkRedisEntry 1 (now w + 60 * 60 * 24 * 7)]> (redis w)) w
  ∧ sale_events (snd (invoicePaid ev w)) = sale_events w
  ∧ links (snd (invoicePaid ev w)) = links w
  ∧ projects (snd (invoicePaid ev w)) = projects w
  ∧ earnings (snd (invoicePaid ev w)) = earnings w
  ∧ background (snd (invoicePaid ev w)) = background w.
Proof.
  intros Hc Hr Hl.
  destruct (Z.eqb_spec (amount_paid (data_object ev)) 0) as [Hz | Hz].
  - now rewrite (run_zero_amount _ _ _ Hc Hr Hz).
  - now rewrite (run_no_lead _ _ _ Hc Hr Hz Hl).
Qed.

(** C4, amended: whenever the handler records a sale, the customer
    look-up by external billing customer id succeeded, the invoice's amount
    paid is different from 0, and a prior lead event exists for that
    customer. *)
Theorem sale_recorded_only_if ev w :
  records_sale ev w →
  ∃ cu lead rest,
    customers w !! invoice_customer (data_object ev) = Some cu
    ∧ amount_paid (data_object ev) ≠ 0
    ∧ lead_events w !! customer_id cu = Some (lead :: rest).
Proof.
  unfold records_sale. intros Hs.
  destruct (customers w !! invoice_customer (data_object ev)) as [cu |]
    eqn:Hc;
    [| now rewrite (run_no_customer _ _ Hc) in Hs].
  destruct (redis_holds w (dedup_key (invoice_id (data_object ev)))) eqn:Hr;
    [now rewrite (run_duplicate _ _ _ Hc Hr) in Hs |].
  destruct (Z.eq_dec (amount_paid (data_object ev)) 0) as [Hz | Hz];
    [now rewrite (run_zero_amount _ _ _ Hc Hr Hz) in Hs |].
  destruct (lead_events w !! customer_id cu) as [[| lead rest] |] eqn:Hl.
  - rewrite (run_no_lead _ _ _ Hc Hr Hz) in Hs; [easy | auto].
  - now exists cu, lead, rest.
  - rewrite (run_no_lead _ _ _ Hc Hr Hz) in Hs; [easy | auto].
Qed.

(** C6: for a processed sale whose link has a null program id, no earnings
    record is created and no partner notification is dispatched, while the
    workspace webhook with trigger ["sale.created"] is dispatched: it is the
    one task queued. *)
Theorem plain_link_no_earnings_webhook_sent ev w cu lead l p :
  Processed ev w cu lead l p →
  programId l = None →
  earnings (snd (invoicePaid ev w)) = earnings w
  ∧ (∃ workspace data,
       background (snd (invoicePaid ev w))
       = background w ++ [SendWorkspaceWebhook "sale.created" workspace data])
  ∧ (∀ partner referral program a e,
       NotifyPartnerSale partner referral program a e ∈ background
         (snd (invoicePaid ev w)) →
       NotifyPartnerSale partner referral program a e ∈ background w).
Proof.
  intros HP Hprog.
  rewrite (run_plain_link _ _ _ _ _ _ HP) by now rewrite Hprog.
  unfold after_writes, webhook_task. stores. repeat split.
  - eauto.
  - intros partner referral program a e Hin.
    apply elem_of_app in Hin as [Hin | Hin]; [exact Hin |].
    apply list_elem_of_singleton in Hin. discriminate.
Qed.

(** C5, amended: for every successfully processed sale whose link has a
    program id that is neither null nor the empty string, exactly one
    earnings record is created, the one [prepareEarnings] computed, and its
    [amount] and [earnings] fields are passed unchanged into the payload of
    the partner-sale notification. *)
Theorem program_link_one_earnings_record ev w cu lead l p msg :
  Processed ev w cu lead l p →
  truthy (programId l) = true →
  fst (invoicePaid ev w) = Fulfilled msg →
  ∃ enrollment,
    find (has_link (link_id lead)) (enrollments w) = Some enrollment
    ∧ let data := earnings_of (data_object ev) cu lead enrollment w in
      earnings (snd (invoicePaid ev w)) = earnings w ++ [data]
      ∧ background (snd (invoicePaid ev w))
        = background w
          ++ [NotifyPartnerSale (partnerId (enrollment_partner enrollment))
                (shortLink l) (enrollment_program enrollment)
                (earnings_amount data) (earnings_earnings data);
              webhook_task (data_object ev) cu lead l p w].
Proof.
  intros HP Ht Hf.
  destruct (find (has_link (link_id lead)) (enrollments w)) as [e |] eqn:He.
  - exists e. split; [reflexivity |].
    rewrite (run_program_link _ _ _ _ _ _ _ HP Ht He). now split.
  - rewrite (run_no_enrollment _ _ _ _ _ _ HP Ht He) in Hf. discriminate.
Qed.

(** C8, amended: for every processed sale whose link has a program id that
    is neither null nor the empty string, but for which no program
    enrollment containing that link exists, the handler raises the error of
    the find-or-throw look-up instead of returning a message, and the writes
    of the parallel step (the sale event, the link's and the workspace's
    counter increments) have happened and stay; no earnings record and no
    task is added. *)
Theorem missing_enrollment_rejects_after_writes ev w cu lead l p :
  Processed ev w cu lead l p →
  truthy (programId l) = true →
  find (has_link (link_id lead)) (enrollments w) = None →
  fst (invoicePaid ev w) = Rejected (RecordNotFound "ProgramEnrollment")
  ∧ sale_events (snd (invoicePaid ev w))
    = sale_events w ++ [sale_of (data_object ev) lead w]
  ∧ links (snd (invoicePaid ev w)) !! link_id lead
    = Some (mkLink (shortLink l) (programId l) (sales l + 1)
              (saleAmount l + amount_paid (data_object ev)))
  ∧ projects (snd (invoicePaid ev w)) !! projectId cu
    = Some (mkProject (usage p + 1)
              (salesUsage p + amount_paid (data_object ev)))
  ∧ earnings (snd (invoicePaid ev w)) = earnings w
  ∧ background (snd (invoicePaid ev w)) = background w.
Proof.
  intros HP Ht He. rewrite (run_no_enrollment _ _ _ _ _ _ HP Ht He).
  unfold after_writes. stores. repeat split; apply lookup_insert_eq.
Qed.

(** C9: for every processed sale, the click-attribution timestamp of the
    workspace webhook's payload is the customer's first-click time when
    that is not null and the customer's creation time otherwise, and the
    payload carries the link as updated by the increment, which is the row
    now stored, not the link read before the update. *)
Theorem webhook_clickedAt_and_updated_link ev w cu lead l p msg :
  Processed ev w cu lead l p →
  fst (invoicePaid ev w) = Fulfilled msg →
  ∃ earlier workspace input,
    background (snd (invoicePaid ev w))
    = earlier
      ++ [SendWorkspaceWebhook "sale.created" workspace
            (transformSaleEventData input)]
    ∧ sei_clickedAt input
      = match clickedAt cu with
        | Some first_click => first_click
        | None => createdAt cu
        end
    ∧ sei_link input
      = mkLink (shortLink l) (programId l) (sales l + 1)
          (saleAmount l + amount_paid (data_object ev))
    ∧ links (snd (invoicePaid ev w)) !! link_id lead = Some (sei_link input).
Proof.
  intros HP Hf.
  set (input := mkSaleEventInput (sale_of (data_object ev) lead w)
                  (or_else (clickedAt cu) (createdAt cu))
                  (link_after (data_object ev) l) cu).
  destruct (truthy (programId l)) eqn:Ht.
  - destruct (find (has_link (link_id lead)) (enrollments w)) as [e |] eqn:He.
    + rewrite (run_program_link _ _ _ _ _ _ _ HP Ht He).
      exists (background w
              ++ [notify_task l e (earnings_of (data_object ev) cu lead e w)]),
        (project_after (data_object ev) p), input.
      unfold after_writes. stores. repeat split.
      * now rewrite <- app_assoc.
      * apply lookup_insert_eq.
    + rewrite (run_no_enrollment _ _ _ _ _ _ HP Ht He) in Hf. discriminate.
  - rewrite (run_plain_link _ _ _ _ _ _ HP Ht).
    exists (background w), (project_after (data_object ev) p), input.
    unfold after_writes. stores. repeat split. apply lookup_insert_eq.
Qed.

(** C10: when the external billing customer id resolves to no customer,
    the handler returns its skip message before attempting the dedup claim,
    so the key of the invoice id is not consumed: every store is as it was,
    and a later delivery of the same invoice id, once the customer has been
    synchronised, passes the dedup check, claims the key and records the
    sale. *)
Theorem unknown_customer_keeps_key_free ev w ev2 w2 cu lead l p :
  customers w !! invoice_customer (data_object ev) = None →
  redis_holds w (dedup_key (invoice_id (data_object ev))) = false →
  invoice_id (data_object ev2) = invoice_id (data_object ev) →
  redis w2 !! dedup_key (invoice_id (data_object ev))
    = redis (snd (invoicePaid ev w))
        !! dedup_key (invoice_id (data_object ev)) →
  (now w ≤ now w2)%Z →
  customers w2 !! invoice_customer (data_object ev2) = Some cu →
  amount_paid (data_object ev2) ≠ 0 →
  (∃ rest, lead_events w2 !! customer_id cu = Some (lead :: rest)) →
  links w2 !! link_id lead = Some l →
  projects w2 !! projectId cu = Some p →
  invoicePaid ev w
    = (Fulfilled (msg_customer_not_found (invoice_customer (data_object ev))),
       w)
  ∧ fst (redis_set_nx (dedup_key (invoice_id (data_object ev2))) 1
           (60 * 60 * 24 * 7) w2) = Fulfilled (Some "OK")
  ∧ redis (snd (invoicePaid ev2 w2))
      !! dedup_key (invoice_id (data_object ev2))
    = Some (mkRedisEntry 1 (now w2 + 60 * 60 * 24 * 7))
  ∧ sale_events (snd (invoicePaid ev2 w2))
    = sale_events w2 ++ [sale_of (data_object ev2) lead w2].
Proof.
  intros Hc Hr Hid Hk Ht Hc2 Hz Hl Hlk Hp.
  rewrite (run_no_customer _ _ Hc) in Hk |- *. cbn [snd] in Hk.
  pose proof (free_key_stays_free _ _ _ Hr Hk Ht) as Hfree.
  rewrite <- Hid in Hfree.
  assert (HP : Processed ev2 w2 cu lead l p) by now constructor.
  split; [reflexivity |]. split.
  { unfold redis_set_nx. now rewrite Hfree. }
  split.
  - rewrite (key_after_claim _ _ _ Hc2 Hfree). unfold claimed. stores.
    apply lookup_insert_eq.
  - apply (processed_sale_logged _ _ _ _ _ _ HP).
Qed.

(** ** Further properties of the handler *)

Lemma run_no_workspace ev w cu lead l :
  customers w !! invoice_customer (data_object ev) = Some cu →
  redis_holds w (dedup_key (invoice_id (data_object ev))) = false →
  amount_paid (data_object ev) ≠ 0 →
  (∃ rest, lead_events w !! customer_id cu = Some (lead :: rest)) →
  links w !! link_id lead = Some l →
  projects w !! projectId cu = None →
  invoicePaid ev w
  = (Rejected (RecordNotFound "Project"),
     partial_writes (data_object ev) lead l w).
Proof.
  intros Hc Hr Hz [rest Hl] Hk Hp. handler.
  rewrite Hc, Hr. apply Z.eqb_neq in Hz. rewrite Hz. stores.
  rewrite Hl. stores. rewrite Hk. stores. rewrite Hk. stores. rewrite Hp.
  reflexivity.
Qed.

(** The handler always follows one of the paths. *)
Lemma invoicePaid_path ev w :
  ∃ r w', invoicePaid ev w = (r, w') ∧ Path ev w r w'.
Proof.
  destruct (customers w !! invoice_customer (data_object ev)) as [cu |]
    eqn:Hc.
  2: { eexists _, _. split; [apply (run_no_customer _ _ Hc) |].
       now constructor. }
  destruct (redis_holds w (dedup_key (invoice_id (data_object ev)))) eqn:Hr.
  { eexists _, _. split; [apply (run_duplicate _ _ _ Hc Hr) |].
    now apply (path_duplicate _ _ cu). }
  destruct (Z.eq_dec (amount_paid (data_object ev)) 0) as [Hz | Hz].
  { eexists _, _. split; [apply (run_zero_amount _ _ _ Hc Hr Hz) |].
    now apply (path_zero_amount _ _ cu). }
  destruct (lead_events w !! customer_id cu) as [[| lead rest] |] eqn:Hl.
  1, 3: eexists _, _;
        (split; [apply (run_no_lead _ _ _ Hc Hr Hz); auto |]);
        apply path_no_lead; auto.
  destruct (links w !! link_id lead) as [l |] eqn:Hk.
  2: { eexists _, _. split; [apply (run_no_link _ _ _ lead Hc Hr Hz); eauto |].
       now apply (path_no_link _ _ cu lead rest). }
  destruct (projects w !! projectId cu) as [p |] eqn:Hp.
  2: { eexists _, _.
       split; [apply (run_no_workspace _ _ _ lead l Hc Hr Hz); eauto |].
       now apply (path_no_workspace _ _ cu lead rest). }
  assert (HP : Processed ev w cu lead l p) by (constructor; eauto).
  destruct (truthy (programId l)) eqn:Ht.
  2: { eexists _, _. split; [apply (run_plain_link _ _ _ _ _ _ HP Ht) |].
       now constructor. }
  destruct (find (has_link (link_id lead)) (enrollments w)) as [e |] eqn:He.
  - eexists _, _. split; [apply (run_program_link _ _ _ _ _ _ _ HP Ht He) |].
    now constructor.
  - eexists _, _. split; [apply (run_no_enrollment _ _ _ _ _ _ HP Ht He) |].
    now constructor.
Qed.

(** X1: when the link of the first lead event no longer exists, the
    handler returns the link-not-found message; the dedup key has been
    claimed by then, but no sale event, counter, earnings record or task
    is written. *)
Theorem missing_link_skipped ev w cu lead rest :
  customers w !! invoice_customer (data_object ev) = Some cu →
  redis_holds w (dedup_key (invoice_id (data_object ev))) = false →
  amount_paid (data_object ev) ≠ 0 →
  lead_events w !! customer_id cu = Some (lead :: rest) →
  links w !! link_id lead = None →
  fst (invoicePaid ev w) = Fulfilled (msg_link_not_found (link_id lead))
  ∧ sale_events (snd (invoicePaid ev w)) = sale_events w
  ∧ links (snd (invoicePaid ev w)) = links w
  ∧ projects (snd (invoicePaid ev w)) = projects w
  ∧ earnings (snd (invoicePaid ev w)) = earnings w
  ∧ background (snd (invoicePaid ev w)) = background w
  ∧ redis_holds (snd (invoicePaid ev w))
      (dedup_key (invoice_id (data_object ev))) = true.
Proof.
  intros Hc Hr Hz Hl Hk.
  rewrite (run_no_link _ _ _ lead Hc Hr Hz) by eauto. cbn [fst snd].
  repeat split.
  apply (claimed_holds _ w); [reflexivity |].
  unfold claimed, dedup_window. stores. lia.
Qed.

(** X2: when the workspace row of the customer does not exist, the
    workspace update rejects and so does the handler, but the two other
    writes of the [Promise.all] have been made and stay: the sale event is
    in the log and the link's counters are incremented.  No earnings
    record is created and no task is queued. *)
Theorem missing_workspace_rejects_after_partial_writes ev w cu lead rest l :
  customers w !! invoice_customer (data_object ev) = Some cu →
  redis_holds w (dedup_key (invoice_id (data_object ev))) = false →
  amount_paid (data_object ev) ≠ 0 →
  lead_events w !! customer_id cu = Some (lead :: rest) →
  links w !! link_id lead = Some l →
  projects w !! projectId cu = None →
  fst (invoicePaid ev w) = Rejected (RecordNotFound "Project")
  ∧ sale_events (snd (invoicePaid ev w))
    = sale_events w ++ [sale_of (data_object ev) lead w]
  ∧ links (snd (invoicePaid ev w)) !! link_id lead
    = Some (mkLink (shortLink l) (programId l) (sales l + 1)
              (saleAmount l + amount_paid (data_object ev)))
  ∧ projects (snd (invoicePaid ev w)) = projects w
  ∧ earnings (snd (invoicePaid ev w)) = earnings w
  ∧ background (snd (invoicePaid ev w)) = background w.
Proof.
  intros Hc Hr Hz Hl Hk Hp.
  rewrite (run_no_workspace _ _ _ lead l Hc Hr Hz) by eauto.
  unfold partial_writes. stores. repeat split. apply lookup_insert_eq.
Qed.

(** X3: the handler never writes to the customers, the lead events or the
    enrollments, whatever the event and the world. *)
Theorem handler_reads_only ev w :
  customers (snd (invoicePaid ev w)) = customers w
  ∧ lead_events (snd (invoicePaid ev w)) = lead_events w
  ∧ enrollments (snd (invoicePaid ev w)) = enrollments w.
Proof.
  destruct (invoicePaid_path ev w) as (r & w' & -> & HP).
  destruct HP; repeat split.
Qed.

(** The handler does not move the clock. *)
Lemma handler_keeps_clock ev w : now (snd (invoicePaid ev w)) = now w.
Proof.
  destruct (invoicePaid_path ev w) as (r & w' & -> & HP).
  destruct HP; reflexivity.
Qed.

(** Dedup keys of different invoices differ. *)
Lemma dedup_key_inj a b : dedup_key a = dedup_key b → a = b.
Proof. unfold dedup_key. cbn. intros E. now inversion E. Qed.

(** X4: the only key of the dedup store the handler can change is the one
    of the invoice it is given. *)
Theorem other_keys_untouched ev w key :
  key ≠ dedup_key (invoice_id (data_object ev)) →
  redis (snd (invoicePaid ev w)) !! key = redis w !! key.
Proof.
  intros Hne.
  destruct (invoicePaid_path ev w) as (r & w' & -> & HP).
  destruct HP; unfold claimed, partial_writes, after_writes; stores;
    try reflexivity; now apply lookup_insert_ne.
Qed.

(** X5: a link row changes only if it is the link of the customer's first
    lead event. *)
Theorem only_attributed_link_changes ev w id :
  links (snd (invoicePaid ev w)) !! id ≠ links w !! id →
  ∃ cu lead rest,
    customers w !! invoice_customer (data_object ev) = Some cu
    ∧ lead_events w !! customer_id cu = Some (lead :: rest)
    ∧ id = link_id lead.
Proof.
  intros Hch.
  destruct (invoicePaid_path ev w) as (r & w' & E & HP). rewrite E in Hch.
  assert (∀ cu lead l,
            customers w !! invoice_customer (data_object ev) = Some cu →
            (∃ rest, lead_events w !! customer_id cu = Some (lead :: rest)) →
            <[link_id lead := l]> (links w) !! id ≠ links w !! id →
            ∃ cu lead rest,
              customers w !! invoice_customer (data_object ev) = Some cu
              ∧ lead_events w !! customer_id cu = Some (lead :: rest)
              ∧ id = link_id lead) as Hins.
  { intros cu lead l Hc [rest Hl] Hne. exists cu, lead, rest.
    repeat split; [exact Hc | exact Hl |].
    destruct (decide (link_id lead = id)) as [<- | Hd]; [reflexivity |].
    now rewrite lookup_insert_ne in Hne. }
  destruct HP as [ | | | | | cu lead rest l Hc _ _ Hl _ _
                   | cu lead l p [Hc _ _ Hl _ _] _
                   | cu lead l p e [Hc _ _ Hl _ _] _ _
                   | cu lead l p [Hc _ _ Hl _ _] _ _ ];
    unfold claimed, partial_writes, after_writes in Hch; stores_in Hch;
    try (now contradict Hch); eapply Hins; eauto.
Qed.

(** X6: a workspace row changes only if it is the workspace of the
    customer the invoice belongs to. *)
Theorem only_customer_workspace_changes ev w id :
  projects (snd (invoicePaid ev w)) !! id ≠ projects w !! id →
  ∃ cu,
    customers w !! invoice_customer (data_object ev) = Some cu
    ∧ id = projectId cu.
Proof.
  intros Hch.
  destruct (invoicePaid_path ev w) as (r & w' & E & HP). rewrite E in Hch.
  assert (∀ cu p,
            customers w !! invoice_customer (data_object ev) = Some cu →
            <[projectId cu := p]> (projects w) !! id ≠ projects w !! id →
            ∃ cu,
              customers w !! invoice_customer (data_object ev) = Some cu
              ∧ id = projectId cu) as Hins.
  { intros cu p Hc Hne. exists cu. split; [exact Hc |].
    destruct (decide (projectId cu = id)) as [<- | Hd]; [reflexivity |].
    now rewrite lookup_insert_ne in Hne. }
  destruct HP as [ | | | | |
                   | cu lead l p [Hc _ _ _ _ _] _
                   | cu lead l p e [Hc _ _ _ _ _] _ _
                   | cu lead l p [Hc _ _ _ _ _] _ _ ];
    unfold claimed, partial_writes, after_writes in Hch; stores_in Hch;
    try (now contradict Hch); eapply Hins; eauto.
Qed.

(** X7: the event log, the earnings table and the task queue only grow at
    their end: what they held stays, in order.  One invocation adds at
    most one sale event, an earnings record only together with a sale
    event, and at most one task per sale event and earnings record. *)
Theorem logs_append_only ev w :
  ∃ new_sales new_earnings new_tasks,
    sale_events (snd (invoicePaid ev w)) = sale_events w ++ new_sales
    ∧ earnings (snd (invoicePaid ev w)) = earnings w ++ new_earnings
    ∧ background (snd (invoicePaid ev w)) = background w ++ new_tasks
    ∧ (length new_sales ≤ 1)%nat
    ∧ (length new_earnings ≤ length new_sales)%nat
    ∧ (length new_tasks ≤ length new_sales + length new_earnings)%nat.
Proof.
  destruct (invoicePaid_path ev w) as (r & w' & -> & HP).
  destruct HP as [ | | | | | cu lead rest l
                   | cu lead l p | cu lead l p e | cu lead l p ];
    unfold claimed, partial_writes, after_writes; stores.
  1-5: exists [], [], []; rewrite !app_nil_r; cbn; repeat split; lia.
  - eexists [_], [], []. rewrite !app_nil_r. cbn. repeat split; lia.
  - eexists [_], [], [_]. rewrite !app_nil_r. cbn. repeat split; lia.
  - eexists [_], [_], [_; _]. cbn. repeat split; lia.
  - eexists [_], [], []. rewrite !app_nil_r. cbn. repeat split; lia.
Qed.

(** X8: delivering the same event a second time, right after the first,
    changes nothing: whatever the first delivery did, the second finds
    either no customer or the dedup key held. *)
Theorem handler_idempotent ev w :
  snd (invoicePaid ev (snd (invoicePaid ev w))) = snd (invoicePaid ev w).
Proof.
  destruct (handler_reads_only ev w) as (Hcust & _ & _).
  pose proof (handler_keeps_clock ev w) as Hnow.
  destruct (customers w !! invoice_customer (data_object ev)) as [cu |]
    eqn:Hc.
  - assert (Hheld : redis_holds (snd (invoicePaid ev w))
                      (dedup_key (invoice_id (data_object ev))) = true).
    { destruct (redis_holds w (dedup_key (invoice_id (data_object ev))))
        eqn:Hr.
      - now rewrite (run_duplicate _ _ _ Hc Hr).
      - apply (claimed_holds _ w).
        + now rewrite (key_after_claim _ _ _ Hc Hr).
        + rewrite Hnow. unfold dedup_window. lia. }
    rewrite <- Hcust in Hc.
    now rewrite (run_duplicate _ _ _ Hc Hheld).
  - rewrite (run_no_customer _ _ Hc). cbn [snd].
    now rewrite (run_no_customer _ _ Hc).
Qed.

(** X9: the dedup claim is time-boxed.  Once seven days have passed since
    an invoice id was claimed, a delivery of the same id wins the claim
    again and its sale is recorded a second time. *)
Theorem redelivery_after_window_recorded ev1 w1 cu1 ev2 w2 cu lead l p :
  customers w1 !! invoice_customer (data_object ev1) = Some cu1 →
  redis_holds w1 (dedup_key (invoice_id (data_object ev1))) = false →
  invoice_id (data_object ev2) = invoice_id (data_object ev1) →
  redis w2 !! dedup_key (invoice_id (data_object ev1))
    = redis (snd (invoicePaid ev1 w1))
        !! dedup_key (invoice_id (data_object ev1)) →
  (now w1 + 60 * 60 * 24 * 7 ≤ now w2)%Z →
  customers w2 !! invoice_customer (data_object ev2) = Some cu →
  amount_paid (data_object ev2) ≠ 0 →
  (∃ rest, lead_events w2 !! customer_id cu = Some (lead :: rest)) →
  links w2 !! link_id lead = Some l →
  projects w2 !! projectId cu = Some p →
  sale_events (snd (invoicePaid ev2 w2))
    = sale_events w2 ++ [sale_of (data_object ev2) lead w2]
  ∧ redis (snd (invoicePaid ev2 w2))
      !! dedup_key (invoice_id (data_object ev2))
    = Some (mkRedisEntry 1 (now w2 + 60 * 60 * 24 * 7)).
Proof.
  intros Hc1 Hr1 Hid Hk Ht Hc Hz Hl Hlk Hp.
  rewrite (key_after_claim _ _ _ Hc1 Hr1) in Hk.
  assert (Hfree : redis_holds w2 (dedup_key (invoice_id (data_object ev2)))
                  = false).
  { rewrite Hid. unfold redis_holds. rewrite Hk. unfold claimed. stores.
    rewrite lookup_insert_eq. cbn. apply bool_decide_eq_false.
    unfold dedup_window. lia. }
  assert (HP : Processed ev2 w2 cu lead l p) by now constructor.
  split.
  - apply (processed_sale_logged _ _ _ _ _ _ HP).
  - rewrite (key_after_claim _ _ _ Hc Hfree). unfold claimed. stores.
    apply lookup_insert_eq.
Qed.

(** A list does not equal itself with an element appended. *)
Lemma snoc_neq {A} (l : list A) (x : A) : l ++ [x] ≠ l.
Proof.
  intros E. apply (f_equal length) in E. rewrite length_app in E.
  cbn in E. lia.
Qed.

(** The counters of a processed sale are written however the program
    branch ends. *)
Lemma processed_counters ev w cu lead l p :
  Processed ev w cu lead l p →
  links (snd (invoicePaid ev w)) !! link_id lead
    = Some (link_after (data_object ev) l)
  ∧ projects (snd (invoicePaid ev w)) !! projectId cu
    = Some (project_after (data_object ev) p).
Proof.
  intros HP.
  destruct (truthy (programId l)) eqn:Ht.
  - destruct (find (has_link (link_id lead)) (enrollments w)) as [e |] eqn:He.
    + rewrite (run_program_link _ _ _ _ _ _ _ HP Ht He).
      unfold after_writes. stores. split; apply lookup_insert_eq.
    + rewrite (run_no_enrollment _ _ _ _ _ _ HP Ht He).
      unfold after_writes. stores. split; apply lookup_insert_eq.
  - rewrite (run_plain_link _ _ _ _ _ _ HP Ht).
    unfold after_writes. stores. split; apply lookup_insert_eq.
Qed.

(** What has to hold for the event log to grow. *)
Lemma sale_recorded_only_if_cases ev w :
  sale_events (snd (invoicePaid ev w)) ≠ sale_events w →
  ∃ cu lead rest l,
    customers w !! invoice_customer (data_object ev) = Some cu
    ∧ redis_holds w (dedup_key (invoice_id (data_object ev))) = false
    ∧ amount_paid (data_object ev) ≠ 0
    ∧ lead_events w !! customer_id cu = Some (lead :: rest)
    ∧ links w !! link_id lead = Some l.
Proof.
  intros Hs.
  destruct (invoicePaid_path ev w) as (r & w' & E & HP). rewrite E in Hs.
  destruct HP as [ | | | | | cu lead rest l
                   | cu lead l p [? ? ? [rest ?] ? ?]
                   | cu lead l p e [? ? ? [rest ?] ? ?]
                   | cu lead l p [? ? ? [rest ?] ? ?] ];
    try (now contradict Hs);
    now exists cu, lead, rest, l.
Qed.

(** X10: when the handler returns, its message tells whether a sale was
    recorded: the event log has grown exactly when the message is the
    "Sale recorded" one, naming the customer found and the invoice. *)
Theorem status_message_tells_outcome ev w msg :
  fst (invoicePaid ev w) = Fulfilled msg →
  records_sale ev w
  ↔ ∃ cu,
      customers w !! invoice_customer (data_object ev) = Some cu
      ∧ msg = msg_sale_recorded (customer_id cu)
                (invoice_id (data_object ev)).
Proof.
  unfold records_sale. intros Hf.
  destruct (invoicePaid_path ev w) as (r & w' & E & HP).
  rewrite E in Hf |- *. cbn [fst snd] in Hf |- *.
  destruct HP as [ | | | | | cu lead rest l
                   | cu lead l p HP | cu lead l p e HP | cu lead l p HP ];
    try discriminate Hf;
    injection Hf as <-; unfold claimed, after_writes; stores.
  1-5: split; [intros Hgrow; now contradict Hgrow |];
       intros (cu' & _ & Hmsg); unfold msg_sale_recorded in Hmsg;
       cbn in Hmsg; discriminate Hmsg.
  1-2: split; [intros _; exists cu; split;
                 [apply (proc_customer _ _ _ _ _ _ HP) | reflexivity]
              | intros _; apply snoc_neq].
Qed.

(** X11: whenever a sale event is logged, the counters of the attributed
    link have been incremented by 1 and by the amount paid, whether or not
    the link belongs to a program and however the rest of the invocation
    ends; so have the counters of the customer's workspace, if it exists. *)
Theorem sale_implies_counters ev w :
  records_sale ev w →
  ∃ cu lead rest l,
    customers w !! invoice_customer (data_object ev) = Some cu
    ∧ lead_events w !! customer_id cu = Some (lead :: rest)
    ∧ links w !! link_id lead = Some l
    ∧ links (snd (invoicePaid ev w)) !! link_id lead
      = Some (mkLink (shortLink l) (programId l) (sales l + 1)
                (saleAmount l + amount_paid (data_object ev)))
    ∧ ∀ p, projects w !! projectId cu = Some p →
           projects (snd (invoicePaid ev w)) !! projectId cu
           = Some (mkProject (usage p + 1)
                     (salesUsage p + amount_paid (data_object ev))).
Proof.
  unfold records_sale. intros Hs.
  destruct (sale_recorded_only_if_cases ev w Hs)
    as (cu & lead & rest & l & Hc & Hr & Hz & Hl & Hk).
  exists cu, lead, rest, l. repeat split; try assumption.
  - destruct (projects w !! projectId cu) as [p |] eqn:Hp.
    + assert (HP : Processed ev w cu lead l p) by (constructor; eauto).
      apply (processed_counters _ _ _ _ _ _ HP).
    + rewrite (run_no_workspace _ _ _ lead l Hc Hr Hz) by eauto.
      unfold partial_writes. stores. apply lookup_insert_eq.
  - intros p Hp.
    assert (HP : Processed ev w cu lead l p) by (constructor; eauto).
    apply (processed_counters _ _ _ _ _ _ HP).
Qed.

(** X12: an earnings record is created only for a processed sale whose
    link has a truthy program id and an enrollment; it is then the one
    record appended, and the sale event is in the log. *)
Theorem earnings_only_for_program_links ev w :
  earnings (snd (invoicePaid ev w)) ≠ earnings w →
  ∃ cu lead l p enrollment,
    Processed ev w cu lead l p
    ∧ truthy (programId l) = true
    ∧ find (has_link (link_id lead)) (enrollments w) = Some enrollment
    ∧ earnings (snd (invoicePaid ev w))
      = earnings w ++ [earnings_of (data_object ev) cu lead enrollment w]
    ∧ sale_events (snd (invoicePaid ev w))
      = sale_events w ++ [sale_of (data_object ev) lead w].
Proof.
  intros Hch.
  destruct (invoicePaid_path ev w) as (r & w' & E & HP).
  rewrite E in Hch |- *.
  destruct HP as [ | | | | | cu lead rest l
                   | cu lead l p HP | cu lead l p e HP Ht He | cu lead l p HP ];
    try (now contradict Hch).
  now exists cu, lead, l, p, e.
Qed.

(** X13: the earnings of a program sale are computed from the sale event
    just logged: [prepareEarnings] receives the event id, amount, currency
    and invoice id of that event, the link it is attributed to, the
    customer's id, and the program and partner of the enrollment. *)
Theorem earnings_computed_from_logged_sale ev w cu lead l p enrollment :
  Processed ev w cu lead l p →
  truthy (programId l) = true →
  find (has_link (link_id lead)) (enrollments w) = Some enrollment →
  ∃ sale,
    sale_events (snd (invoicePaid ev w)) = sale_events w ++ [sale]
    ∧ amount sale = amount_paid (data_object ev)
    ∧ currency sale = invoice_currency (data_object ev)
    ∧ sale_invoice_id sale = invoice_id (data_object ev)
    ∧ earnings (snd (invoicePaid ev w))
      = earnings w
        ++ [prepareEarnings
              (mkEarningsArgs (sale_link_id sale) (customer_id cu)
                 (enrollment_program enrollment)
                 (enrollment_partner enrollment)
                 "sale" (event_id sale)
                 (amount sale) (currency sale) (sale_invoice_id sale))].
Proof.
  intros HP Ht He. rewrite (run_program_link _ _ _ _ _ _ _ HP Ht He).
  exists (sale_of (data_object ev) lead w). repeat split.
Qed.

(** X14: claiming one invoice never blocks another: after any delivery,
    the key of an invoice with a different id is held exactly if it was
    held before. *)
Theorem other_invoice_not_blocked ev w other :
  other ≠ invoice_id (data_object ev) →
  redis_holds (snd (invoicePaid ev w)) (dedup_key other)
  = redis_holds w (dedup_key other).
Proof.
  intros Hne. unfold redis_holds.
  rewrite other_keys_untouched, handler_keeps_clock; [reflexivity |].
  intros E. now apply dedup_key_inj in E.
Qed.

(** X15: two invoices of one customer, with different ids, delivered one
    after the other are both recorded: the log gains their two sale events
    in order, and the counters of the link and of the workspace have grown
    by 2 and by the sum of the two amounts. *)
Theorem two_invoices_accumulate ev1 ev2 w cu lead l p :
  Processed ev1 w cu lead l p →
  invoice_customer (data_object ev2) = invoice_customer (data_object ev1) →
  invoice_id (data_object ev2) ≠ invoice_id (data_object ev1) →
  redis_holds w (dedup_key (invoice_id (data_object ev2))) = false →
  amount_paid (data_object ev2) ≠ 0 →
  ∃ sale1 sale2,
    sale_events (snd (invoicePaid ev2 (snd (invoicePaid ev1 w))))
    = sale_events w ++ [sale1; sale2]
    ∧ amount sale1 = amount_paid (data_object ev1)
    ∧ amount sale2 = amount_paid (data_object ev2)
    ∧ links (snd (invoicePaid ev2 (snd (invoicePaid ev1 w)))) !! link_id lead
      = Some (mkLink (shortLink l) (programId l) (sales l + 2)
                (saleAmount l + amount_paid (data_object ev1)
                 + amount_paid (data_object ev2)))
    ∧ projects (snd (invoicePaid ev2 (snd (invoicePaid ev1 w))))
        !! projectId cu
      = Some (mkProject (usage p + 2)
                (salesUsage p + amount_paid (data_object ev1)
                 + amount_paid (data_object ev2))).
Proof.
  intros HP1 Hcust Hid Hfree Hz.
  destruct (handler_reads_only ev1 w) as (Hc1 & Hl1 & _).
  destruct (processed_counters _ _ _ _ _ _ HP1) as (Hlink1 & Hws1).
  pose proof (processed_sale_logged _ _ _ _ _ _ HP1) as Hlog1.
  assert (HP2 : Processed ev2 (snd (invoicePaid ev1 w)) cu lead
                  (link_after (data_object ev1) l)
                  (project_after (data_object ev1) p)).
  { destruct HP1 as [Hc _ _ Hl _ _]. constructor.
    - now rewrite Hc1, Hcust.
    - now rewrite other_invoice_not_blocked.
    - exact Hz.
    - now rewrite Hl1.
    - exact Hlink1.
    - exact Hws1. }
  destruct (processed_counters _ _ _ _ _ _ HP2) as (Hlink2 & Hws2).
  pose proof (processed_sale_logged _ _ _ _ _ _ HP2) as Hlog2.
  exists (sale_of (data_object ev1) lead w),
    (sale_of (data_object ev2) lead (snd (invoicePaid ev1 w))).
  rewrite Hlog2, Hlog1, Hlink2, Hws2, <- app_assoc.
  unfold link_after, project_after.
  cbn [shortLink programId sales saleAmount usage salesUsage].
  repeat split; do 2 f_equal; lia.
Qed.

(** X16: the workspace webhook of a processed sale carries the sale event
    just logged, the customer found, and the workspace row as updated by
    the increment, which is the row now stored. *)
Theorem webhook_carries_logged_sale ev w cu lead l p msg :
  Processed ev w cu lead l p →
  fst (invoicePaid ev w) = Fulfilled msg →
  ∃ earlier workspace input,
    background (snd (invoicePaid ev w))
    = earlier
      ++ [SendWorkspaceWebhook "sale.created" workspace
            (transformSaleEventData input)]
    ∧ sale_events (snd (invoicePaid ev w)) = sale_events w ++ [sei_sale input]
    ∧ sei_customer input = cu
    ∧ workspace
      = mkProject (usage p + 1) (salesUsage p + amount_paid (data_object ev))
    ∧ projects (snd (invoicePaid ev w)) !! projectId cu = Some workspace.
Proof.
  intros HP Hf.
  destruct (processed_counters _ _ _ _ _ _ HP) as (_ & Hws).
  pose proof (processed_sale_logged _ _ _ _ _ _ HP) as Hlog.
  rewrite Hws, Hlog. clear Hws Hlog.
  destruct (truthy (programId l)) eqn:Ht.
  - destruct (find (has_link (link_id lead)) (enrollments w)) as [e |] eqn:He.
    + rewrite (run_program_link _ _ _ _ _ _ _ HP Ht He).
      eexists (background w ++ [_]), _, _. unfold webhook_task. stores.
      rewrite <- app_assoc. repeat split.
    + rewrite (run_no_enrollment _ _ _ _ _ _ HP Ht He) in Hf. discriminate.
  - rewrite (run_plain_link _ _ _ _ _ _ HP Ht).
    eexists (background w), _, _. unfold webhook_task. stores.
    repeat split.
Qed.

(** X17: attribution is by the first lead event alone.  Whatever lead
    events follow it in the customer's list, the handler completes the same
    way and leaves the same dedup store, event log, links, workspaces,
    earnings and tasks. *)
Theorem only_first_lead_matters ev w cu lead rest rest' :
  customers w !! invoice_customer (data_object ev) = Some cu →
  lead_events w !! customer_id cu = Some (lead :: rest) →
  fst (invoicePaid ev (with_leads (customer_id cu) (lead :: rest') w))
    = fst (invoicePaid ev w)
  ∧ redis (snd (invoicePaid ev (with_leads (customer_id cu) (lead :: rest') w)))
    = redis (snd (invoicePaid ev w))
  ∧ sale_events
      (snd (invoicePaid ev (with_leads (customer_id cu) (lead :: rest') w)))
    = sale_events (snd (invoicePaid ev w))
  ∧ links (snd (invoicePaid ev (with_leads (customer_id cu) (lead :: rest') w)))
    = links (snd (invoicePaid ev w))
  ∧ projects
      (snd (invoicePaid ev (with_leads (customer_id cu) (lead :: rest') w)))
    = projects (snd (invoicePaid ev w))
  ∧ earnings
      (snd (invoicePaid ev (with_leads (customer_id cu) (lead :: rest') w)))
    = earnings (snd (invoicePaid ev w))
  ∧ background
      (snd (invoicePaid ev (with_leads (customer_id cu) (lead :: rest') w)))
    = background (snd (invoicePaid ev w)).
Proof.
  intros Hc Hl.
  set (w2 := with_leads (customer_id cu) (lead :: rest') w).
  assert (Hc2 : customers w2 !! invoice_customer (data_object ev) = Some cu)
    by exact Hc.
  assert (Hl2 : lead_events w2 !! customer_id cu = Some (lead :: rest'))
    by apply lookup_insert_eq.
  destruct (redis_holds w (dedup_key (invoice_id (data_object ev)))) eqn:Hr.
  { rewrite (run_duplicate ev w2 cu Hc2 Hr), (run_duplicate _ _ _ Hc Hr).
    repeat split. }
  destruct (Z.eq_dec (amount_paid (data_object ev)) 0) as [Hz | Hz].
  { rewrite (run_zero_amount ev w2 cu Hc2 Hr Hz),
      (run_zero_amount _ _ _ Hc Hr Hz).
    repeat split. }
  destruct (links w !! link_id lead) as [l |] eqn:Hk.
  2: { rewrite (run_no_link ev w2 cu lead Hc2 Hr Hz) by eauto.
       rewrite (run_no_link _ _ _ lead Hc Hr Hz) by eauto.
       repeat split. }
  destruct (projects w !! projectId cu) as [p |] eqn:Hp.
  2: { rewrite (run_no_workspace ev w2 cu lead l Hc2 Hr Hz) by eauto.
       rewrite (run_no_workspace _ _ _ lead l Hc Hr Hz) by eauto.
       repeat split. }
  assert (HP : Processed ev w cu lead l p) by (constructor; eauto).
  assert (HP2 : Processed ev w2 cu lead l p) by (constructor; eauto).
  destruct (truthy (programId l)) eqn:Ht.
  2: { rewrite (run_plain_link _ _ _ _ _ _ HP2 Ht),
         (run_plain_link _ _ _ _ _ _ HP Ht).
       repeat split. }
  destruct (find (has_link (link_id lead)) (enrollments w)) as [e |] eqn:He.
  - rewrite (run_program_link ev w2 _ _ _ _ e HP2 Ht) by exact He.
    rewrite (run_program_link _ _ _ _ _ _ _ HP Ht He).
    repeat split.
  - rewrite (run_no_enrollment ev w2 _ _ _ _ HP2 Ht) by exact He.
    rewrite (run_no_enrollment _ _ _ _ _ _ HP Ht He).
    repeat split.
Qed.

End Properties.


(** * The properties on the concrete deployment *)

Module Run.
Import Scenario.

Lemma scenario_sale_recorded_witness :
  Processed (invoice_in_1 500) world_1 cus_1 lead_1 link_1 ws_1
  ∧ fst (invoicePaid (invoice_in_1 500) world_1)
    = Fulfilled "Sale recorded for customer ID cus_1 and invoice ID in_1"
  ∧ links (snd (invoicePaid (invoice_in_1 500) world_1)) !! "link_1"
    = Some (mkLink "https://dub.sh/one" None 4 1700)
  ∧ projects (snd (invoicePaid (invoice_in_1 500) world_1)) !! "ws_1"
    = Some (mkProject 11 4500).
Proof.
  assert (HP : Processed (invoice_in_1 500) world_1 cus_1 lead_1 link_1 ws_1)
    by processed.
  split; [exact HP |].
  destruct (scenario_sale_recorded _ _ _ _ _ _ HP eq_refl eq_refl eq_refl
              eq_refl eq_refl eq_refl) as (Hmsg & Hlink & Hws & _).
  split; [exact Hmsg |]. split; [exact Hlink | exact Hws].
Defined.

Lemma zero_amount_skipped_key_consumed_witness :
  amount_paid (data_object (invoice_in_1 0)) = 0
  ∧ sale_events (snd (invoicePaid (invoice_in_1 0) world_1)) = []
  ∧ redis_holds (snd (invoicePaid (invoice_in_1 0) world_1))
      (dedup_key "in_1") = true.
Proof.
  split; [reflexivity |].
  destruct (zero_amount_skipped_key_consumed (invoice_in_1 0) world_1 cus_1
              eq_refl eq_refl eq_refl)
    as (_ & Hsales & _ & _ & _ & _ & _ & Hheld).
  split; [exact Hsales | exact Hheld].
Defined.

Lemma duplicate_invoice_skipped_witness :
  redis_holds world_claimed (dedup_key "in_1") = true
  ∧ invoicePaid (invoice_in_1 500) world_claimed
    = (Fulfilled "Invoice with ID in_1 already processed, skipping...",
       world_claimed).
Proof.
  split; [reflexivity |].
  destruct (duplicate_invoice_skipped (invoice_in_1 500) world_claimed cus_1
              eq_refl eq_refl) as (Hmsg & Hworld).
  rewrite (surjective_pairing (invoicePaid (invoice_in_1 500) world_claimed)).
  rewrite Hmsg, Hworld. reflexivity.
Defined.

Lemma no_lead_only_dedup_claim_witness :
  lead_events world_no_lead !! "cus_1" = None
  ∧ fst (invoicePaid (invoice_in_1 500) world_no_lead)
    = Fulfilled "Lead event with customer ID cus_1 not found, skipping..."
  ∧ sale_events (snd (invoicePaid (invoice_in_1 500) world_no_lead)) = [].
Proof.
  split; [reflexivity |].
  destruct (no_lead_only_dedup_claim (invoice_in_1 500) world_no_lead cus_1
              eq_refl eq_refl (or_introl eq_refl))
    as (Hmsg & _ & Hsales & _).
  split; [exact Hmsg | exact Hsales].
Defined.

(** A negative amount paid passes the zero-amount guard: the sale is
    recorded although the amount is not positive. *)
Lemma negative_amount_sale_recorded :
  ¬ sale_only_if_positive_amount (invoice_in_1 (-500)) world_1.
Proof.
  intros Hclaim.
  destruct Hclaim as (cu & lead & rest & _ & Hpos & _).
  - vm_compute. discriminate.
  - cbn in Hpos. lia.
Qed.

Lemma sale_recorded_only_if_witness :
  records_sale (invoice_in_1 500) world_1
  ∧ ∃ cu lead rest,
      customers world_1 !! "cus_stripe_1" = Some cu
      ∧ (500 ≠ 0)%Z
      ∧ lead_events world_1 !! customer_id cu = Some (lead :: rest).
Proof.
  assert (Hs : records_sale (invoice_in_1 500) world_1)
    by (vm_compute; discriminate).
  split; [exact Hs |].
  exact (sale_recorded_only_if (invoice_in_1 500) world_1 Hs).
Defined.

(** The empty string is a program id that is not null, yet [if
    (link.programId)] takes it for absent: the sale is processed and no
    earnings record is created. *)
Lemma empty_program_id_no_earnings :
  ¬ non_null_program_creates_earnings (invoice_in_1 500) world_empty_program.
Proof.
  intros Hclaim.
  assert (HP : Processed (invoice_in_1 500) world_empty_program cus_1 lead_1
                 empty_program_link ws_1) by processed.
  assert (Hf : fst (invoicePaid (invoice_in_1 500) world_empty_program)
               = Fulfilled (msg_sale_recorded "cus_1" "in_1"))
    by (vm_compute; reflexivity).
  destruct (Hclaim _ _ _ _ "" _ HP eq_refl Hf) as (data & He & _).
  vm_compute in He. discriminate.
Qed.

Lemma program_link_one_earnings_record_witness :
  Processed (invoice_in_1 500) world_program cus_1 lead_1 program_link ws_1
  ∧ earnings (snd (invoicePaid (invoice_in_1 500) world_program))
    = [(Some 500, Some 50)]
  ∧ ∃ webhook,
      background (snd (invoicePaid (invoice_in_1 500) world_program))
      = [NotifyPartnerSale (H := sample_collaborators)
           "pn_1" "https://dub.sh/one" "Acme affiliates"
           (Some 500) (Some 50);
         webhook].
Proof.
  assert (HP : Processed (invoice_in_1 500) world_program cus_1 lead_1
                 program_link ws_1) by processed.
  assert (Hf : fst (invoicePaid (invoice_in_1 500) world_program)
               = Fulfilled (msg_sale_recorded "cus_1" "in_1"))
    by (vm_compute; reflexivity).
  split; [exact HP |].
  destruct (program_link_one_earnings_record _ _ _ _ _ _ _ HP eq_refl Hf)
    as (enrollment & Hfound & Hearn & Htasks).
  injection Hfound as <-.
  split; [exact Hearn |]. eexists. exact Htasks.
Defined.

Lemma plain_link_no_earnings_webhook_sent_witness :
  Processed (invoice_in_1 500) world_1 cus_1 lead_1 link_1 ws_1
  ∧ earnings (snd (invoicePaid (invoice_in_1 500) world_1)) = []
  ∧ ∃ workspace data,
      background (snd (invoicePaid (invoice_in_1 500) world_1))
      = [SendWorkspaceWebhook "sale.created" workspace data].
Proof.
  assert (HP : Processed (invoice_in_1 500) world_1 cus_1 lead_1 link_1 ws_1)
    by processed.
  split; [exact HP |].
  destruct (plain_link_no_earnings_webhook_sent _ _ _ _ _ _ HP eq_refl)
    as (Hearn & Htask & _).
  split; [exact Hearn | exact Htask].
Defined.

(** With the empty string as program id and no enrollment, the handler
    does not raise: it returns the success message. *)
Lemma empty_program_id_no_rejection :
  ¬ non_null_program_needs_enrollment (invoice_in_1 500) world_empty_program.
Proof.
  intros Hclaim.
  assert (HP : Processed (invoice_in_1 500) world_empty_program cus_1 lead_1
                 empty_program_link ws_1) by processed.
  destruct (Hclaim _ _ _ _ "" HP eq_refl eq_refl) as (e & He).
  vm_compute in He. discriminate.
Qed.

Lemma missing_enrollment_rejects_after_writes_witness :
  Processed (invoice_in_1 500) world_not_enrolled cus_1 lead_1 program_link
    ws_1
  ∧ fst (invoicePaid (invoice_in_1 500) world_not_enrolled)
    = Rejected (RecordNotFound "ProgramEnrollment")
  ∧ links (snd (invoicePaid (invoice_in_1 500) world_not_enrolled))
      !! "link_1"
    = Some (mkLink "https://dub.sh/one" (Some "prog_1") 4 1700)
  ∧ projects (snd (invoicePaid (invoice_in_1 500) world_not_enrolled))
      !! "ws_1"
    = Some (mkProject 11 4500).
Proof.
  assert (HP : Processed (invoice_in_1 500) world_not_enrolled cus_1 lead_1
                 program_link ws_1) by processed.
  split; [exact HP |].
  destruct (missing_enrollment_rejects_after_writes _ _ _ _ _ _ HP
              eq_refl eq_refl) as (Herr & _ & Hlink & Hws & _).
  split; [exact Herr |]. split; [exact Hlink | exact Hws].
Defined.

Lemma webhook_clickedAt_and_updated_link_witness :
  Processed (invoice_in_1 500) world_program cus_1 lead_1 program_link ws_1
  ∧ ∃ earlier workspace input,
      background (snd (invoicePaid (invoice_in_1 500) world_program))
      = earlier ++ [SendWorkspaceWebhook "sale.created" workspace input]
      ∧ sei_clickedAt input = 1700000000
      ∧ sei_link input
        = mkLink "https://dub.sh/one" (Some "prog_1") 4 1700.
Proof.
  assert (HP : Processed (invoice_in_1 500) world_program cus_1 lead_1
                 program_link ws_1) by processed.
  assert (Hf : fst (invoicePaid (invoice_in_1 500) world_program)
               = Fulfilled (msg_sale_recorded "cus_1" "in_1"))
    by (vm_compute; reflexivity).
  split; [exact HP |].
  destruct (webhook_clickedAt_and_updated_link _ _ _ _ _ _ _ HP Hf)
    as (earlier & workspace & input & Htasks & Hclick & Hlink & _).
  exists earlier, workspace, input.
  split; [exact Htasks |]. split; [exact Hclick | exact Hlink].
Defined.

Lemma unknown_customer_keeps_key_free_witness :
  customers world_unknown_customer !! "cus_stripe_1" = None
  ∧ invoicePaid (invoice_in_1 500) world_unknown_customer
    = (Fulfilled
         "Customer with stripeCustomerId cus_stripe_1 not found, skipping...",
       world_unknown_customer)
  ∧ length (sale_events (snd (invoicePaid (invoice_in_1 500) world_1)))
    = 1%nat.
Proof.
  split; [reflexivity |].
  destruct (unknown_customer_keeps_key_free
              (invoice_in_1 500) world_unknown_customer
              (invoice_in_1 500) world_1 cus_1 lead_1 link_1 ws_1
              eq_refl eq_refl eq_refl eq_refl
              ltac:(cbn; lia) eq_refl ltac:(cbn; lia)
              (ex_intro _ [] eq_refl) eq_refl eq_refl)
    as (Hskip & _ & _ & Hsales).
  split; [exact Hskip |]. rewrite Hsales. reflexivity.
Defined.

Lemma missing_link_skipped_witness :
  links world_no_link !! "link_1" = None
  ∧ fst (invoicePaid (invoice_in_1 500) world_no_link)
    = Fulfilled "Link with ID link_1 not found, skipping..."
  ∧ redis_holds (snd (invoicePaid (invoice_in_1 500) world_no_link))
      (dedup_key "in_1") = true.
Proof.
  split; [reflexivity |].
  destruct (missing_link_skipped (invoice_in_1 500) world_no_link cus_1
              lead_1 [] eq_refl eq_refl ltac:(cbn; lia) eq_refl eq_refl)
    as (Hmsg & _ & _ & _ & _ & _ & Hheld).
  split; [exact Hmsg | exact Hheld].
Defined.

Lemma missing_workspace_rejects_after_partial_writes_witness :
  projects world_no_workspace !! "ws_1" = None
  ∧ fst (invoicePaid (invoice_in_1 500) world_no_workspace)
    = Rejected (RecordNotFound "Project")
  ∧ links (snd (invoicePaid (invoice_in_1 500) world_no_workspace))
      !! "link_1"
    = Some (mkLink "https://dub.sh/one" None 4 1700).
Proof.
  split; [reflexivity |].
  destruct (missing_workspace_rejects_after_partial_writes
              (invoice_in_1 500) world_no_workspace cus_1 lead_1 [] link_1
              eq_refl eq_refl ltac:(cbn; lia) eq_refl eq_refl eq_refl)
    as (Herr & _ & Hlink & _).
  split; [exact Herr | exact Hlink].
Defined.

Lemma other_keys_untouched_witness :
  dedup_key "in_2" ≠ dedup_key "in_1"
  ∧ redis (snd (invoicePaid (invoice_in_1 500) world_1)) !! dedup_key "in_2"
    = None.
Proof.
  assert (Hne : dedup_key "in_2" ≠ dedup_key "in_1") by discriminate.
  split; [exact Hne |].
  exact (other_keys_untouched (invoice_in_1 500) world_1 _ Hne).
Defined.

Lemma only_attributed_link_changes_witness :
  links (snd (invoicePaid (invoice_in_1 500) world_1)) !! "link_1"
    ≠ links world_1 !! "link_1"
  ∧ ∃ cu lead rest,
      customers world_1 !! "cus_stripe_1" = Some cu
      ∧ lead_events world_1 !! customer_id cu = Some (lead :: rest)
      ∧ "link_1" = link_id lead.
Proof.
  assert (Hch : links (snd (invoicePaid (invoice_in_1 500) world_1))
                  !! "link_1" ≠ links world_1 !! "link_1")
    by (vm_compute; discriminate).
  split; [exact Hch |].
  exact (only_attributed_link_changes (invoice_in_1 500) world_1 _ Hch).
Defined.

Lemma only_customer_workspace_changes_witness :
  projects (snd (invoicePaid (invoice_in_1 500) world_1)) !! "ws_1"
    ≠ projects world_1 !! "ws_1"
  ∧ ∃ cu,
      customers world_1 !! "cus_stripe_1" = Some cu
      ∧ "ws_1" = projectId cu.
Proof.
  assert (Hch : projects (snd (invoicePaid (invoice_in_1 500) world_1))
                  !! "ws_1" ≠ projects world_1 !! "ws_1")
    by (vm_compute; discriminate).
  split; [exact Hch |].
  exact (only_customer_workspace_changes (invoice_in_1 500) world_1 _ Hch).
Defined.

Lemma redelivery_after_window_recorded_witness :
  (now world_1 + 60 * 60 * 24 * 7 ≤ now world_week_later)%Z
  ∧ length (sale_events (snd (invoicePaid (invoice_in_1 500) world_week_later)))
    = 1%nat
  ∧ redis (snd (invoicePaid (invoice_in_1 500) world_week_later))
      !! dedup_key "in_1"
    = Some (mkRedisEntry 1 (1700500000 + 8 * 86400 + 604800)).
Proof.
  assert (Ht : (now world_1 + 60 * 60 * 24 * 7 ≤ now world_week_later)%Z)
    by (cbn; lia).
  split; [exact Ht |].
  destruct (redelivery_after_window_recorded
              (invoice_in_1 500) world_1 cus_1
              (invoice_in_1 500) world_week_later cus_1 lead_1 link_1 ws_1
              eq_refl eq_refl eq_refl eq_refl Ht eq_refl ltac:(cbn; lia)
              (ex_intro _ [] eq_refl) eq_refl eq_refl)
    as (Hsales & Hkey).
  split; [now rewrite Hsales | exact Hkey].
Defined.

Lemma redelivery_within_window_skipped_witness :
  fst (invoicePaid (invoice_in_1 0) world_1)
    = Fulfilled "Invoice with ID in_1 has an amount of 0, skipping..."
  ∧ snd (invoicePaid (invoice_in_1 500)
           (snd (invoicePaid (invoice_in_1 0) world_1)))
    = snd (invoicePaid (invoice_in_1 0) world_1).
Proof.
  split; [reflexivity |].
  destruct (redelivery_within_window_skipped
              (invoice_in_1 0) world_1 cus_1
              (invoice_in_1 500) (snd (invoicePaid (invoice_in_1 0) world_1))
              eq_refl eq_refl eq_refl eq_refl ltac:(vm_compute; reflexivity))
    as (Hsame & _).
  exact Hsame.
Defined.

Lemma status_message_tells_outcome_witness :
  fst (invoicePaid (invoice_in_1 500) world_1)
    = Fulfilled "Sale recorded for customer ID cus_1 and invoice ID in_1"
  ∧ records_sale (invoice_in_1 500) world_1.
Proof.
  assert (Hf : fst (invoicePaid (invoice_in_1 500) world_1)
               = Fulfilled
                   "Sale recorded for customer ID cus_1 and invoice ID in_1")
    by reflexivity.
  split; [exact Hf |].
  apply (status_message_tells_outcome (invoice_in_1 500) world_1 _ Hf).
  exists cus_1. split; reflexivity.
Defined.

Lemma sale_implies_counters_witness :
  records_sale (invoice_in_1 500) world_1
  ∧ ∃ cu lead l,
      links world_1 !! link_id lead = Some l
      ∧ links (snd (invoicePaid (invoice_in_1 500) world_1)) !! link_id lead
        = Some (mkLink (shortLink l) (programId l) (sales l + 1)
                  (saleAmount l + 500))
      ∧ customers world_1 !! "cus_stripe_1" = Some cu.
Proof.
  assert (Hs : records_sale (invoice_in_1 500) world_1)
    by (vm_compute; discriminate).
  split; [exact Hs |].
  destruct (sale_implies_counters (invoice_in_1 500) world_1 Hs)
    as (cu & lead & rest & l & Hc & _ & Hk & Hk' & _).
  exists cu, lead, l. split; [exact Hk |]. split; [exact Hk' | exact Hc].
Defined.

Lemma earnings_only_for_program_links_witness :
  earnings (snd (invoicePaid (invoice_in_1 500) world_program))
    ≠ earnings world_program
  ∧ ∃ l enrollment,
      links world_program !! "link_1" = Some l
      ∧ truthy (programId l) = true
      ∧ find (has_link "link_1") (enrollments world_program)
        = Some enrollment.
Proof.
  assert (Hch : earnings (snd (invoicePaid (invoice_in_1 500) world_program))
                ≠ earnings world_program)
    by (vm_compute; discriminate).
  split; [exact Hch |].
  destruct (earnings_only_for_program_links (invoice_in_1 500) world_program
              Hch)
    as (cu & lead & l & p & e & HP & Ht & He & _).
  destruct HP as [Hc _ _ [rest Hl] Hk _].
  injection Hc as <-. injection Hl as <- _.
  exists l, e. split; [exact Hk |]. split; [exact Ht | exact He].
Defined.

Lemma earnings_computed_from_logged_sale_witness :
  Processed (invoice_in_1 500) world_program cus_1 lead_1 program_link ws_1
  ∧ ∃ sale,
      sale_events (snd (invoicePaid (invoice_in_1 500) world_program))
      = [sale]
      ∧ event_id sale = "evt_0"
      ∧ earnings (snd (invoicePaid (invoice_in_1 500) world_program))
        = [(Some 500, Some 50)].
Proof.
  assert (HP : Processed (invoice_in_1 500) world_program cus_1 lead_1
                 program_link ws_1) by processed.
  split; [exact HP |].
  destruct (earnings_computed_from_logged_sale (H := sample_collaborators)
              _ _ _ _ _ _ enrollment_1 HP eq_refl eq_refl)
    as (sale & Hlog & _ & _ & _ & Hearn).
  exists sale. split; [exact Hlog |].
  injection Hlog as <-. split; [reflexivity | exact Hearn].
Defined.

Lemma other_invoice_not_blocked_witness :
  "in_2" ≠ "in_1"
  ∧ redis_holds (snd (invoicePaid (invoice_in_1 500) world_1))
      (dedup_key "in_2") = false.
Proof.
  assert (Hne : "in_2" ≠ "in_1") by discriminate.
  split; [exact Hne |].
  exact (other_invoice_not_blocked (invoice_in_1 500) world_1 "in_2" Hne).
Defined.

Lemma two_invoices_accumulate_witness :
  Processed (invoice_in_1 500) world_1 cus_1 lead_1 link_1 ws_1
  ∧ links (snd (invoicePaid (invoice_in_2 300)
                  (snd (invoicePaid (invoice_in_1 500) world_1))))
      !! "link_1"
    = Some (mkLink "https://dub.sh/one" None 5 2000)
  ∧ projects (snd (invoicePaid (invoice_in_2 300)
                     (snd (invoicePaid (invoice_in_1 500) world_1))))
      !! "ws_1"
    = Some (mkProject 12 4800).
Proof.
  assert (HP : Processed (invoice_in_1 500) world_1 cus_1 lead_1 link_1 ws_1)
    by processed.
  split; [exact HP |].
  destruct (two_invoices_accumulate (invoice_in_1 500) (invoice_in_2 300)
              world_1 cus_1 lead_1 link_1 ws_1 HP eq_refl
              ltac:(discriminate) eq_refl ltac:(cbn; lia))
    as (sale1 & sale2 & _ & _ & _ & Hlink & Hws).
  split; [exact Hlink | exact Hws].
Defined.

Lemma webhook_carries_logged_sale_witness :
  Processed (invoice_in_1 500) world_1 cus_1 lead_1 link_1 ws_1
  ∧ ∃ earlier input,
      background (snd (invoicePaid (invoice_in_1 500) world_1))
      = earlier
        ++ [SendWorkspaceWebhook "sale.created" (mkProject 11 4500) input]
      ∧ sale_events (snd (invoicePaid (invoice_in_1 500) world_1))
        = [sei_sale input].
Proof.
  assert (HP : Processed (invoice_in_1 500) world_1 cus_1 lead_1 link_1 ws_1)
    by processed.
  assert (Hf : fst (invoicePaid (invoice_in_1 500) world_1)
               = Fulfilled (msg_sale_recorded "cus_1" "in_1"))
    by reflexivity.
  split; [exact HP |].
  destruct (webhook_carries_logged_sale _ _ _ _ _ _ _ HP Hf)
    as (earlier & workspace & input & Htasks & Hlog & _ & Hws & _).
  exists earlier, input. rewrite Hws in Htasks.
  split; [exact Htasks | exact Hlog].
Defined.

Lemma only_first_lead_matters_witness :
  lead_events world_1 !! "cus_1" = Some [lead_1]
  ∧ fst (invoicePaid (invoice_in_1 500)
           (with_leads "cus_1"
              [lead_1; mkLeadEvent "lead_evt_2" "Trial" "link_9" "click_9"
                         "cus_1"]
              world_1))
    = Fulfilled "Sale recorded for customer ID cus_1 and invoice ID in_1"
  ∧ links (snd (invoicePaid (invoice_in_1 500)
                  (with_leads "cus_1"
                     [lead_1; mkLeadEvent "lead_evt_2" "Trial" "link_9"
                                "click_9" "cus_1"]
                     world_1)))
    = links (snd (invoicePaid (invoice_in_1 500) world_1)).
Proof.
  split; [reflexivity |].
  destruct (only_first_lead_matters (invoice_in_1 500) world_1 cus_1 lead_1 []
              [mkLeadEvent "lead_evt_2" "Trial" "link_9" "click_9" "cus_1"]
              eq_refl eq_refl)
    as (Hmsg & _ & _ & Hlinks & _).
  split; [exact Hmsg | exact Hlinks].
Defined.

End Run.
